(** * A shallow embedding of the scaffolding CLI [src/cli.js]

    The CLI is one ECMAScript module: a handful of constants parsed from
    [process.argv], a set of [async] helpers (prompting, running external
    commands, copying and patching files) and a top-level flow that awaits
    them one after the other.

    - JavaScript strings are sequences of UTF-16 code units: [list N].
    - Every interaction with the outside (console, prompts, [node:fs],
      [child_process.exec], the order in which concurrent promises reject)
      is an [Effect]; an [async] function is a tree of
      effects ([Prog]) and an environment answering the effects runs it,
      recording the trace of what happened.
    - Library functions that are pure but foreign ([path.join],
      [jsonc.modify]/[jsonc.applyEdits], [JSON.parse]) are section variables. *)

From Stdlib Require Import List NArith ZArith Bool String Ascii.
From Stdlib Require Import DecimalString DecimalPos DecimalZ.
Import ListNotations.

Set Implicit Arguments.

(** ** JavaScript strings *)

Module Js.

Local Open Scope N_scope.

Definition codeunit := N.
Definition jsstring := list codeunit.

(** A string literal of the source, one code unit per (ASCII) character. *)
Definition lit (s : string) : jsstring := map N_of_ascii (list_ascii_of_string s).

(** The double quote, which the literals above cannot hold. *)
Definition dq : jsstring := [34].

Definition eqb (a b : jsstring) : bool :=
  if list_eq_dec N.eq_dec a b then true else false.

(** [ToBoolean] on a string: only the empty string is falsy. *)
Definition truthy (s : jsstring) : bool :=
  match s with [] => false | _ :: _ => true end.

(** [String.prototype.startsWith] (position 0). *)
Fixpoint startsWith (s p : jsstring) {struct p} : bool :=
  match p with
  | [] => true
  | c :: p' =>
      match s with
      | [] => false
      | d :: s' => N.eqb d c && startsWith s' p'
      end
  end.

(** WhiteSpace and LineTerminator code points of ECMA-262, the ones
    [String.prototype.trim] strips. *)
Definition isWhiteSpace (c : codeunit) : bool :=
  existsb (N.eqb c)
    [9; 10; 11; 12; 13; 32; 160; 5760; 8192; 8193; 8194; 8195; 8196; 8197;
     8198; 8199; 8200; 8201; 8202; 8232; 8233; 8239; 8287; 12288; 65279].

Fixpoint trimStart (s : jsstring) : jsstring :=
  match s with
  | [] => []
  | c :: s' => if isWhiteSpace c then trimStart s' else s
  end.

Definition trimEnd (s : jsstring) : jsstring := rev (trimStart (rev s)).

Definition trim (s : jsstring) : jsstring := trimEnd (trimStart s).

(** [s.split(sep)] for a separator of one code unit. *)
Fixpoint split (sep : codeunit) (s : jsstring) : list jsstring :=
  match s with
  | [] => [[]]
  | c :: s' =>
      if N.eqb c sep then [] :: split sep s'
      else match split sep s' with
           | [] => [[c]]
           | w :: ws => (c :: w) :: ws
           end
  end.

(** First occurrence of [pat] in [s]: the text before it and after it. *)
Fixpoint splitAtFirst (pat s : jsstring) : option (jsstring * jsstring) :=
  if startsWith s pat then Some ([], skipn (List.length pat) s)
  else match s with
       | [] => None
       | c :: s' =>
           match splitAtFirst pat s' with
           | Some (b, a) => Some (c :: b, a)
           | None => None
           end
       end.

(** [GetSubstitution] of ECMA-262 for a string pattern (no captures):
    [$$] is a dollar, [$&] the match, [$`] the text before it, [$'] the
    text after it; any other dollar stands for itself. *)
Fixpoint getSubstitution (matched before after template : jsstring) : jsstring :=
  match template with
  | [] => []
  | c :: t =>
      if N.eqb c 36 then
        match t with
        | [] => [c]
        | d :: t' =>
            if N.eqb d 36 then 36 :: getSubstitution matched before after t'
            else if N.eqb d 38 then matched ++ getSubstitution matched before after t'
            else if N.eqb d 96 then before ++ getSubstitution matched before after t'
            else if N.eqb d 39 then after ++ getSubstitution matched before after t'
            else c :: getSubstitution matched before after t
        end
      else c :: getSubstitution matched before after t
  end.

(** [s.replace(pat, repl)] with a string pattern: the first occurrence only. *)
Definition replace (s pat repl : jsstring) : jsstring :=
  match splitAtFirst pat s with
  | None => s
  | Some (b, a) => b ++ getSubstitution pat b a repl ++ a
  end.

(** [Array.prototype.includes] on strings. *)
Definition includes (l : list jsstring) (x : jsstring) : bool := existsb (eqb x) l.

(** [Array.prototype.findIndex]; [None] is the source's -1. *)
Fixpoint findIndex (f : jsstring -> bool) (l : list jsstring) : option nat :=
  match l with
  | [] => None
  | x :: l' => if f x then Some 0%nat else option_map S (findIndex f l')
  end.

(** Number-to-string of an integer, as a template literal renders it. *)
Definition ofZ (z : Z) : jsstring := lit (NilZero.string_of_int (Z.to_int z)).

End Js.

Import Js.

Arguments lit : simpl never.


(** ** Effects and asynchronous functions *)

(** A thrown value: every error the source builds is [new Error(message)];
    a [TypeError] is the engine's, for a property read on [undefined]. *)
Inductive Error :=
| JsError (message : jsstring)
| JsTypeError (message : jsstring).

(** What a promise of the environment settles to. *)
Inductive result (A : Type) :=
| Ok (a : A)
| Err (e : Error).

Arguments Ok {A} a.
Arguments Err {A} e.

(** The events a child process emits: ['error'] and ['exit'] with its code
    ([None] is the source's [null], a child ended by a signal). *)
Inductive ChildEvent :=
| ChildError (error : Error)
| ChildExit (code : option Z).

(** What the first three statements of the executor of [runCommand] meet:
    [process.cwd], [process.chdir] or [exec] throws; or [exec] hands back a
    child that has no [stdout], [stderr] and [stdin] (the spawn failed for
    want of file descriptors, EMFILE or ENFILE); or it hands back a child
    with its streams, which then emits [events]. *)
Inductive Spawned :=
| SpawnThrew (error : Error)
| NoStdio
| Piped (events : list ChildEvent).

Inductive Level := LLog | LInfo | LWarn | LError.

(** The external collaborators, by interface. A prompt answers [None] when
    it is declined ([response.value] is [undefined]). [FirstRejected] is the
    event loop: of several promises that rejected, with [reasons] in the
    order they were started, the index of the one that rejected first. *)
Inductive Effect : Type -> Type :=
| Console (level : Level) (msg : jsstring) : Effect unit
| PromptConfirm (message : jsstring) : Effect (option bool)
| PromptText (message : jsstring) : Effect (option jsstring)
| Readdir (dir : jsstring) : Effect (result (list jsstring))
| Access (file : jsstring) : Effect (result unit)
| ReadFile (file : jsstring) : Effect (result jsstring)
| WriteFile (file data : jsstring) : Effect (result unit)
| Stat (file : jsstring) : Effect (result bool)
| CopyFile (from to : jsstring) : Effect (result unit)
| Mkdir (dir : jsstring) : Effect (result unit)
| Exec (command : jsstring) : Effect Spawned
| FirstRejected (reasons : list Error) : Effect nat.

(** An asynchronous computation: it returns, throws (a rejected promise),
    ends the process ([process.exit]), never settles, or performs an effect
    and goes on with its answer. *)
Inductive Prog (A : Type) : Type :=
| Ret (a : A)
| Throw (e : Error)
| Exit (code : Z)
| Hang
| Vis (X : Type) (e : Effect X) (k : X -> Prog A).

Arguments Ret {A} a.
Arguments Throw {A} e.
Arguments Exit {A} code.
Arguments Hang {A}.
Arguments Vis {A X} e k.

(** [await p; k]. *)
Fixpoint bind {A B : Type} (p : Prog A) (f : A -> Prog B) : Prog B :=
  match p with
  | Ret a => f a
  | Throw e => Throw e
  | Exit c => Exit c
  | Hang => Hang
  | Vis e k => Vis e (fun x => bind (k x) f)
  end.

(** [try { p } catch { h }]. *)
Fixpoint try_catch {A : Type} (p : Prog A) (h : Error -> Prog A) : Prog A :=
  match p with
  | Ret a => Ret a
  | Throw e => h e
  | Exit c => Exit c
  | Hang => Hang
  | Vis e k => Vis e (fun x => try_catch (k x) h)
  end.

Declare Scope prog_scope.
Delimit Scope prog_scope with prog.
Bind Scope prog_scope with Prog.

Notation "x <- p ;; k" := (bind p (fun x => k))
  (at level 61, p at next level, right associativity) : prog_scope.
Notation "p ;; k" := (bind p (fun _ => k))
  (at level 61, right associativity) : prog_scope.

Local Open Scope prog_scope.

Definition trigger {X : Type} (e : Effect X) : Prog X := Vis e (fun x => Ret x).

(** Awaiting a promise of the environment. *)
Definition settled {A : Type} (r : result A) : Prog A :=
  match r with
  | Ok a => Ret a
  | Err e => Throw e
  end.

Definition console (level : Level) (msg : jsstring) : Prog unit :=
  trigger (Console level msg).

Module fs.
Definition readdir (dir : jsstring) : Prog (list jsstring) :=
  r <- trigger (Readdir dir) ;; settled r.
Definition access (file : jsstring) : Prog unit :=
  r <- trigger (Access file) ;; settled r.
Definition readFile (file : jsstring) : Prog jsstring :=
  r <- trigger (ReadFile file) ;; settled r.
Definition writeFile (file data : jsstring) : Prog unit :=
  r <- trigger (WriteFile file data) ;; settled r.
Definition stat (file : jsstring) : Prog bool :=
  r <- trigger (Stat file) ;; settled r.
Definition copyFile (from to : jsstring) : Prog unit :=
  r <- trigger (CopyFile from to) ;; settled r.
Definition mkdir (dir : jsstring) : Prog unit :=
  r <- trigger (Mkdir dir) ;; settled r.
End fs.

(** [Promise.all] over computations started in list order: each one runs
    to its end. The first rejection in time rejects the whole: with one
    rejection it is that one, with several the event loop tells which
    ([FirstRejected]; an index out of range stands for the first started). *)
Definition attempt {A : Type} (p : Prog A) : Prog (result A) :=
  try_catch (a <- p ;; Ret (Ok a)) (fun e => Ret (Err e)).

Fixpoint gather {A : Type} (ps : list (Prog A)) : Prog (list (result A)) :=
  match ps with
  | [] => Ret []
  | p :: ps' => r <- attempt p ;; rs <- gather ps' ;; Ret (r :: rs)
  end.

Fixpoint allOk {A : Type} (rs : list (result A)) : result (list A) :=
  match rs with
  | [] => Ok []
  | Err e :: _ => Err e
  | Ok a :: rs' =>
      match allOk rs' with
      | Ok l => Ok (a :: l)
      | Err e => Err e
      end
  end.

Fixpoint rejections {A : Type} (rs : list (result A)) : list Error :=
  match rs with
  | [] => []
  | Ok _ :: rs' => rejections rs'
  | Err e :: rs' => e :: rejections rs'
  end.

Definition rejectAll {A : Type} (reasons : list Error) (first : Error) : Prog A :=
  match reasons with
  | _ :: _ :: _ =>
      i <- trigger (FirstRejected reasons) ;;
      Throw (nth i reasons first)
  | _ => Throw first
  end.

Definition promiseAll {A : Type} (ps : list (Prog A)) : Prog (list A) :=
  rs <- gather ps ;;
  match allOk rs with
  | Ok l => Ret l
  | Err first => rejectAll (rejections rs) first
  end.

(** *** Running a computation against an environment *)

(** What the environment saw: each effect with the answer it gave. *)
Inductive Event :=
| EvConsole (level : Level) (msg : jsstring)
| EvConfirm (message : jsstring) (answer : option bool)
| EvText (message : jsstring) (answer : option jsstring)
| EvReaddir (dir : jsstring) (r : result (list jsstring))
| EvAccess (file : jsstring) (r : result unit)
| EvReadFile (file : jsstring) (r : result jsstring)
| EvWriteFile (file data : jsstring) (r : result unit)
| EvStat (file : jsstring) (r : result bool)
| EvCopyFile (from to : jsstring) (r : result unit)
| EvMkdir (dir : jsstring) (r : result unit)
| EvExec (command : jsstring) (child : Spawned)
| EvFirstRejected (reasons : list Error) (index : nat).

Definition observe {X : Type} (e : Effect X) : X -> Event :=
  match e in Effect X return X -> Event with
  | Console l m => fun _ => EvConsole l m
  | PromptConfirm m => EvConfirm m
  | PromptText m => EvText m
  | Readdir d => EvReaddir d
  | Access f => EvAccess f
  | ReadFile f => EvReadFile f
  | WriteFile f d => EvWriteFile f d
  | Stat f => EvStat f
  | CopyFile a b => EvCopyFile a b
  | Mkdir d => EvMkdir d
  | Exec c => EvExec c
  | FirstRejected reasons => EvFirstRejected reasons
  end.

Inductive Outcome (A : Type) :=
| Returned (a : A)
| Thrown (e : Error)
| Exited (code : Z)
| Hung.

Arguments Returned {A} a.
Arguments Thrown {A} e.
Arguments Exited {A} code.
Arguments Hung {A}.

(** An environment answers every effect from its state [W]. *)
Definition Env (W : Type) := forall X : Type, Effect X -> W -> X * W.

Fixpoint run {W A : Type} (env : Env W) (p : Prog A) (w : W)
  : Outcome A * list Event * W :=
  match p with
  | Ret a => (Returned a, [], w)
  | Throw e => (Thrown e, [], w)
  | Exit c => (Exited c, [], w)
  | Hang => (Hung, [], w)
  | Vis e k =>
      let (x, w1) := env _ e w in
      let '(o, tr, w2) := run env (k x) w1 in
      (o, observe e x :: tr, w2)
  end.

Definition outcome {W A : Type} (env : Env W) (p : Prog A) (w : W) : Outcome A :=
  fst (fst (run env p w)).

Definition trace {W A : Type} (env : Env W) (p : Prog A) (w : W) : list Event :=
  snd (fst (run env p w)).

(** [Always P p]: whatever the environment answers, every event of a run
    of [p] satisfies [P]. *)
Definition Always {A : Type} (P : Event -> Prop) (p : Prog A) : Prop :=
  forall (W : Type) (env : Env W) (w : W), Forall P (trace env p w).

(** Events whose [fs.writeFile] targets satisfy [Pw] and whose commands
    satisfy [Pc]; copies of template files are not edits and are not limited. *)
Definition Limits (Pw Pc : jsstring -> Prop) (ev : Event) : Prop :=
  match ev with
  | EvWriteFile file _ _ => Pw file
  | EvExec command _ => Pc command
  | _ => True
  end.

Definition anything : jsstring -> Prop := fun _ => True.
Definition nothing : jsstring -> Prop := fun _ => False.

(** ** The process runner *)

Inductive Settled :=
| Pending
| Resolved
| Rejected (e : Error).

(** The promise of [runCommand] and its three pipes ([true]: destroyed). *)
Record Child := {
  promise : Settled;
  inPipe : bool;
  stdoutPipe : bool;
  stdinPipe : bool
}.

Definition spawned : Child :=
  {| promise := Pending; inPipe := false; stdoutPipe := false; stdinPipe := false |}.


Definition destroyPipes (c : Child) : Child :=
  {| promise := promise c; inPipe := true; stdoutPipe := true; stdinPipe := true |}.

(** Settling a promise that is already settled does nothing. *)
Definition settle (s : Settled) (c : Child) : Child :=
  match promise c with
  | Pending =>
      {| promise := s; inPipe := inPipe c; stdoutPipe := stdoutPipe c;
         stdinPipe := stdinPipe c |}
  | _ => c
  end.

Definition resolve : Child -> Child := settle Resolved.
Definition reject (e : Error) : Child -> Child := settle (Rejected e).

(** [`${code}`]. *)
Definition showCode (code : option Z) : jsstring :=
  match code with
  | Some z => ofZ z
  | None => lit "null"
  end.

Definition exitError (code : option Z) : Error :=
  JsError (lit "Process exited with code " ++ showCode code).

(** [child.on("error", ...)]. *)
Definition onError (error : Error) (c : Child) : Child :=
  reject error (destroyPipes c).

(** [child.on("exit", ...)]: the branch for code 0 does not return, so the
    statements after it run for every code. *)
Definition onExit (code : option Z) (c : Child) : Child :=
  let c1 :=
    match code with
    | Some 0%Z => resolve (destroyPipes c)
    | _ => c
    end in
  reject (exitError code) (destroyPipes c1).

Definition dispatch (c : Child) (ev : ChildEvent) : Child :=
  match ev with
  | ChildError error => onError error c
  | ChildExit code => onExit code c
  end.

Definition emitted (events : list ChildEvent) : Child :=
  fold_left dispatch events spawned.

(** Awaiting the promise once the child has emitted [events]. *)
Definition awaitChild (events : list ChildEvent) : Prog unit :=
  match promise (emitted events) with
  | Pending => Hang
  | Resolved => Ret tt
  | Rejected e => Throw e
  end.

(** [child.stdout.pipe(process.stdout)] on a child without [stdout]
    (the message is that of V8 from Node 16 on). *)
Definition pipeTypeError : Error :=
  JsTypeError (lit "Cannot read properties of undefined (reading 'pipe')").

(** An exception in the executor rejects the promise, and the statements
    after it, the pipes and both handlers among them, never run. *)
Definition runCommand (command : jsstring) : Prog unit :=
  console LInfo (lit "Running command: " ++ command) ;;
  child <- trigger (Exec command) ;;
  match child with
  | SpawnThrew error => Throw error
  | NoStdio => Throw pipeTypeError
  | Piped events => awaitChild events
  end.

(** ** The command-line interface *)

(** A JSON value handed to [jsonc.modify]. *)
#[warnings="-register-all"]
Inductive Json :=
| JString (s : jsstring)
| JArray (items : list Json).

(** One entry of the [patches] array of [patchTsconfigJson]. *)
Record Patch := {
  path : list jsstring;
  value : Json
}.

(** [Boolean(x)] on what a prompt or a lookup hands back. *)
Definition BooleanB (x : option bool) : bool :=
  match x with
  | Some true => true
  | _ => false
  end.

Definition BooleanS (x : option jsstring) : bool :=
  match x with
  | Some s => truthy s
  | None => false
  end.

(** [a || b] where [a] may be [undefined] (or [false]). *)
Definition orElse (a : option jsstring) (b : jsstring) : jsstring :=
  if BooleanS a then match a with Some s => s | None => b end else b.

(** [file.replace(/^dot/, ".")]. *)
Definition undot (file : jsstring) : jsstring :=
  if startsWith file (lit "dot") then lit "." ++ skipn 3 file else file.

Fixpoint defined {A : Type} (l : list (option A)) : list A :=
  match l with
  | [] => []
  | Some a :: l' => a :: defined l'
  | None :: l' => defined l'
  end.

Section Cli.

(** [process.argv], [process.cwd()] and [__filename]. *)
Variable argv : list jsstring.
Variable cwd : jsstring.
Variable filename : jsstring.

(** [path.join]. *)
Variable join : list jsstring -> jsstring.

(** [jsonc.applyEdits(text, jsonc.modify(text, path, value, MODIFICATION_OPTIONS))];
    [Err] when the library throws. *)
Variable jsonc_set : jsstring -> list jsstring -> Json -> result jsstring.

(** [JSON.parse(text).license]: [Err] when that throws, [None] for a falsy
    license, [Some s] for a truthy one that a template literal renders as [s]. *)
Variable license_of : jsstring -> result (option jsstring).

Definition YES_ARG : bool :=
  includes argv (lit "--yes") || includes argv (lit "-y").

Definition MONOREPO_ARG : bool :=
  includes argv (lit "--monorepo") || includes argv (lit "-m").

Definition workspaceFlagIdx : option nat :=
  findIndex (fun arg => eqb arg (lit "-w")) argv.

Definition CREATE_WORKSPACE_ARG : jsstring :=
  orElse
    match find (fun arg => startsWith arg (lit "--workspace=")) argv with
    | Some arg => nth_error (split 61%N arg) 1
    | None => None
    end
    (orElse
       match workspaceFlagIdx with
       | Some idx => nth_error argv (idx + 1)
       | None => None
       end
       []).

Definition SCOPE_ARG : jsstring :=
  match find (fun arg => startsWith arg (lit "--scope=")) argv with
  | Some arg =>
      match nth_error (split 61%N arg) 1 with
      | Some s => s
      | None => []
      end
  | None => []
  end.

Definition checkCreateMonorepo (isCreatingWorkspace : bool) : Prog bool :=
  if negb isCreatingWorkspace then
    (if MONOREPO_ARG
     then console LWarn (lit "Ignoring --monorepo flag since creating a workspace")
     else Ret tt) ;;
    Ret false
  else if MONOREPO_ARG then Ret true
  else
    response <- trigger (PromptConfirm (lit "Create monorepo?")) ;;
    Ret (BooleanB response).

(** The block under [if (!response.value)] in [getScope]. *)
Definition noScope (isOptional : bool) : Prog jsstring :=
  if negb isOptional then Throw (JsError (lit "Scope is required")) else Ret [].

Definition getScope (isOptional : bool) : Prog jsstring :=
  if truthy SCOPE_ARG then
    if startsWith SCOPE_ARG (lit "@") then Ret SCOPE_ARG
    else Ret (lit "@" ++ SCOPE_ARG)
  else
    response <-
      trigger (PromptText (lit "Scope" ++ if isOptional then lit " (optional)" else [])) ;;
    match response with
    | None => noScope isOptional
    | Some value =>
        if negb (truthy value) then noScope isOptional
        else if eqb (trim value) [] || startsWith value (lit "@") then Ret (trim value)
        else Ret (lit "@" ++ value)
    end.

Definition checkCreateWorkspace (isEmpty : bool) : Prog (option jsstring) :=
  if isEmpty && truthy CREATE_WORKSPACE_ARG then
    console LWarn (lit "Ignoring --workspace flag since current directory is empty") ;;
    Ret (Some [])
  else
    found <-
      try_catch (fs.access (lit "./package.json") ;; Ret true) (fun _ => Ret false) ;;
    if negb found then
      if truthy CREATE_WORKSPACE_ARG then
        console LWarn (lit "Ignoring --workspace flag since no package.json found") ;;
        Ret (Some [])
      else Ret (Some [])
    else if truthy CREATE_WORKSPACE_ARG then Ret (Some CREATE_WORKSPACE_ARG)
    else
      response <- trigger (PromptText (lit "Workspace to create (e.g. packages/demoLib)")) ;;
      Ret response.

Definition isEmptyDirectory : Prog bool :=
  files <- fs.readdir cwd ;;
  Ret (Nat.eqb (List.length files) 0).

Definition checkEmptyDirectory : Prog bool :=
  isEmpty <- isEmptyDirectory ;;
  if negb isEmpty && negb (truthy CREATE_WORKSPACE_ARG) then
    response <- trigger (PromptConfirm (lit "Current directory is not empty, continue?")) ;;
    if negb (BooleanB response) then
      console LLog (lit "Exiting...") ;;
      Exit 0
    else Ret isEmpty
  else Ret isEmpty.

Definition patchPackageJson (workspace : jsstring) : Prog unit :=
  runCommand (lit "npm " ++ workspace ++ lit " pkg set type=module").

Definition outDirPatch : Patch :=
  {| path := [lit "compilerOptions"; lit "outDir"]; value := JString (lit "dist") |}.

Definition includePatch : Patch :=
  {| path := [lit "include"]; value := JArray [JString (lit "src")] |}.

Definition pathsPatch (scope : jsstring) : Patch :=
  {| path := [lit "compilerOptions"; lit "paths"; scope ++ lit "/*"];
     value := JArray [JString (lit "../*/src")] |}.

(** The [patches] array that [patchTsconfigJson] builds; [scope] may be
    [undefined] ([None]). *)
Definition patches (scope : option jsstring) (skipSetup : bool) : list Patch :=
  (if skipSetup then [] else [outDirPatch; includePatch]) ++
  (if BooleanS scope
   then match scope with Some s => [pathsPatch s] | None => [] end
   else []).

(** The loop of [patchTsconfigJson]: each edit is computed against the
    document the earlier ones produced. *)
Fixpoint applyPatches (tsconfig : jsstring) (ps : list Patch) : result jsstring :=
  match ps with
  | [] => Ok tsconfig
  | patch :: ps' =>
      match jsonc_set tsconfig (path patch) (value patch) with
      | Ok edited => applyPatches edited ps'
      | Err e => Err e
      end
  end.

Definition patchTsconfigJson (original : jsstring) (scope : option jsstring)
    (skipSetup : bool) : result jsstring :=
  applyPatches original (patches scope skipSetup).

Definition importInternalPattern : jsstring :=
  lit "// " ++ dq ++ lit "import/internal-regex" ++ dq ++ lit ": " ++ dq ++
  lit "^@scope/*" ++ dq ++ lit ",".

Definition importInternalRule (scope : jsstring) : jsstring :=
  dq ++ lit "import/internal-regex" ++ dq ++ lit ": " ++ dq ++
  lit "^" ++ scope ++ lit "/*" ++ dq ++ lit ",".

Definition patchEslintImportInternal (scope : jsstring) : Prog unit :=
  eslintConfig <- fs.readFile (join [cwd; lit ".eslintrc.cjs"]) ;;
  let edited := replace eslintConfig importInternalPattern (importInternalRule scope) in
  fs.writeFile (join [cwd; lit ".eslintrc.cjs"]) edited.

Definition checkPackageJson (scope : jsstring) : Prog unit :=
  try_catch
    (fs.access (lit "./package.json") ;;
     console LInfo (lit "package.json found, continuing...") ;;
     patchPackageJson [])
    (fun _ =>
       let yesArg := if YES_ARG then lit "-y" else [] in
       (if eqb scope [] then runCommand (lit "npm init " ++ yesArg)
        else runCommand (lit "npm init --scope=" ++ scope ++ lit " " ++ yesArg)) ;;
       patchPackageJson []).

Definition getPackageJsonLicense (packageJsonPath : jsstring) : Prog (option jsstring) :=
  try_catch
    (rootPackageJson <- fs.readFile (join [packageJsonPath]) ;;
     settled (license_of rootPackageJson))
    (fun _ =>
       console LError
         (lit "There was an error copying license from the root package.json, please check child packages manually if needed") ;;
       Ret None).

Definition allFiles (dir : jsstring) : Prog (list jsstring) :=
  dirContents <- fs.readdir dir ;;
  files <-
    promiseAll
      (map (fun file =>
              stats <- fs.stat (join [dir; file]) ;;
              Ret (if stats then Some file else None))
           dirContents) ;;
  Ret (defined files).

Definition copyFiles (fromDir toDir : jsstring) : Prog (list unit) :=
  console LInfo (lit "Copying files from " ++ fromDir ++ lit " to " ++ toDir) ;;
  files <- allFiles fromDir ;;
  promiseAll
    (map (fun file => fs.copyFile (join [fromDir; file]) (join [toDir; undot file]))
         files).

Definition TEMPLATE_FILES_DIR : jsstring := join [filename; lit "../.."; lit "template-files"].
Definition COMMON_FILES_DIR : jsstring := join [TEMPLATE_FILES_DIR; lit "common"].
Definition CODE_FILES_DIR : jsstring := join [TEMPLATE_FILES_DIR; lit "code"].
Definition ROOT_FILES_DIR : jsstring := join [TEMPLATE_FILES_DIR; lit "root"].
Definition PACKAGE_FILES_DIR : jsstring := join [TEMPLATE_FILES_DIR; lit "package"].

(** A template literal renders [undefined] by name. *)
Definition shown (x : option jsstring) : jsstring :=
  match x with
  | Some s => s
  | None => lit "undefined"
  end.

(** The compiler-configuration block of [preparePackage]
    ([if (workspace) { ... } else { ... }] around [patchTsconfigJson]). *)
Definition patchTsconfigs (scope directory workspace : jsstring) : Prog unit :=
  if truthy workspace then
    tsconfigBuildJsonc <- fs.readFile (join [directory; lit "tsconfig.build.json"]) ;;
    editedBuild <- settled (patchTsconfigJson tsconfigBuildJsonc None false) ;;
    fs.writeFile (join [directory; lit "tsconfig.build.json"]) editedBuild ;;
    if truthy scope then
      tsconfigJsonc <- fs.readFile (join [directory; lit "tsconfig.json"]) ;;
      edited <- settled (patchTsconfigJson tsconfigJsonc (Some scope) true) ;;
      fs.writeFile (join [directory; lit "tsconfig.json"]) edited
    else Ret tt
  else
    tsconfigJsonc <- fs.readFile (join [directory; lit "tsconfig.json"]) ;;
    edited <- settled (patchTsconfigJson tsconfigJsonc (Some scope) false) ;;
    fs.writeFile (join [directory; lit "tsconfig.json"]) edited.

(** [preparePackage] up to the compiler configuration: license, installs,
    template files, source and test files, the scope prefix. *)
Definition installAndCopy (scope directory workspace sourceFile testFile : jsstring)
    (license : option jsstring) : Prog unit :=
  match license with
  | Some l => runCommand (lit "npm " ++ workspace ++ lit " pkg set license=" ++ dq ++ l ++ dq)
  | None => Ret tt
  end ;;
  runCommand (lit "npm install " ++ workspace ++ lit " --save-dev typescript eslint") ;;
  runCommand (lit "npm install " ++ workspace ++ lit " --save-dev vitest vite-tsconfig-paths") ;;
  copyFiles COMMON_FILES_DIR directory ;;
  (if truthy workspace then copyFiles PACKAGE_FILES_DIR directory ;; Ret tt else Ret tt) ;;
  fs.mkdir (join [directory; lit "src"]) ;;
  fs.copyFile (join [CODE_FILES_DIR; sourceFile]) (join [directory; lit "src/index.ts"]) ;;
  fs.mkdir (join [directory; lit "test"]) ;;
  fs.copyFile (join [CODE_FILES_DIR; testFile]) (join [directory; lit "test/index.test.ts"]) ;;
  let replacer := if eqb scope [] then [] else scope ++ lit "/" in
  contents <- fs.readFile (join [directory; lit "src/index.ts"]) ;;
  fs.writeFile (join [directory; lit "src/index.ts"])
    (replace contents (lit "{{SCOPEPREFIX}}") replacer).

(** [preparePackage] after the compiler configuration: manifest fields. *)
Definition setManifest (workspace : jsstring) : Prog unit :=
  runCommand (lit "npm " ++ workspace ++ lit " pkg set scripts.lint=" ++ dq ++
              lit "npx eslint ." ++ dq) ;;
  (if truthy workspace
   then runCommand (lit "npm " ++ workspace ++ lit " pkg set scripts.build=" ++ dq ++
                    lit "tsc --project tsconfig.build.json" ++ dq)
   else runCommand (lit "npm " ++ workspace ++ lit " pkg set scripts.build=" ++ dq ++
                    lit "tsc" ++ dq)) ;;
  runCommand (lit "npm " ++ workspace ++ lit " pkg set scripts.test=" ++ dq ++
              lit "vitest run" ++ dq) ;;
  runCommand (lit "npm " ++ workspace ++ lit " pkg set scripts.test:watch=" ++ dq ++
              lit "vitest watch" ++ dq) ;;
  runCommand (lit "npm " ++ workspace ++ lit " pkg set main=" ++ dq ++
              lit "dist/src/index.js" ++ dq) ;;
  runCommand (lit "npm " ++ workspace ++ lit " pkg set types=" ++ dq ++
              lit "dist/src/index.d.ts" ++ dq) ;;
  patchPackageJson workspace.

(** The last three awaits of [preparePackage]. *)
Definition lintBuildTest (workspace : jsstring) : Prog unit :=
  runCommand (lit "npm " ++ workspace ++ lit " run lint") ;;
  runCommand (lit "npm " ++ workspace ++ lit " run build") ;;
  runCommand (lit "npm " ++ workspace ++ lit " run test").

(** [preparePackage({ directory, workspace, sourceFile, testFile, license })];
    [scope] is the constant of the top-level flow it closes over. *)
Definition preparePackage (scope directory workspace sourceFile testFile : jsstring)
    (license : option jsstring) : Prog unit :=
  installAndCopy scope directory workspace sourceFile testFile license ;;
  patchTsconfigs scope directory workspace ;;
  setManifest workspace ;;
  lintBuildTest workspace.

Definition libWorkspace : jsstring := lit "-w ./packages/lib".
Definition appWorkspace : jsstring := lit "-w ./packages/app".

Definition scopeArg (scope : jsstring) : jsstring :=
  if eqb scope [] then [] else lit "--scope=" ++ scope.

Definition initWorkspace (workspace scope : jsstring) : jsstring :=
  lit "npm init -y " ++ workspace ++ lit " " ++ scopeArg scope.

Definition provisionLib (scope : jsstring) (rootLicense : option jsstring) : Prog unit :=
  preparePackage scope (join [cwd; lit "packages/lib"]) libWorkspace
    (lit "src/index.ts") (lit "test/index.test.ts") rootLicense.

Definition provisionApp (scope : jsstring) (rootLicense : option jsstring) : Prog unit :=
  preparePackage scope (join [cwd; lit "packages/app"]) appWorkspace
    (lit "src/main.ts") (lit "test/main.test.ts") rootLicense.

(** The [if (isMonorepo)] branch of the flow. *)
Definition monorepoFlow (scope : jsstring) (rootLicense : option jsstring) : Prog unit :=
  patchEslintImportInternal scope ;;
  runCommand (lit "npm install --save-dev typescript @sindresorhus/tsconfig") ;;
  runCommand (initWorkspace libWorkspace scope) ;;
  provisionLib scope rootLicense ;;
  runCommand (initWorkspace appWorkspace scope) ;;
  provisionApp scope rootLicense ;;
  runCommand (lit "npm pkg set scripts.build=" ++ dq ++ lit "npm run build -ws" ++ dq) ;;
  runCommand (lit "npm pkg set scripts.lint=" ++ dq ++ lit "npm run lint -ws" ++ dq) ;;
  runCommand (lit "npm pkg set scripts.test=" ++ dq ++ lit "npm run test -ws" ++ dq) ;;
  runCommand (lit "npm run build") ;;
  runCommand (lit "npm run lint") ;;
  runCommand (lit "npm run test").

(** The [else if (isCreatingWorkspace)] branch. *)
Definition workspaceFlow (scope : jsstring) (createWorkspace rootLicense : option jsstring)
  : Prog unit :=
  let workspaceArg := lit "-w " ++ shown createWorkspace in
  runCommand (initWorkspace workspaceArg scope) ;;
  preparePackage scope (join [cwd; shown createWorkspace]) workspaceArg
    (lit "src/index.ts") (lit "test/index.test.ts") rootLicense ;;
  runCommand (lit "npm run build") ;;
  runCommand (lit "npm run lint") ;;
  runCommand (lit "npm run test").

(** The final [else] branch. *)
Definition singleFlow (scope : jsstring) (rootLicense : option jsstring) : Prog unit :=
  preparePackage scope cwd [] (lit "src/index.ts") (lit "test/index.test.ts") rootLicense.

(** [copyFiles(ROOT_FILES_DIR, ...)] and the shared installs. *)
Definition rootSetup : Prog unit :=
  copyFiles ROOT_FILES_DIR cwd ;;
  runCommand
    (lit "npm install --save-dev eslint-plugin-prettier eslint-config-prettier " ++
     lit "eslint-config-xo eslint-config-xo-typescript @typescript-eslint/parser @typescript-eslint/eslint-plugin " ++
     lit "eslint-plugin-unicorn eslint-plugin-import eslint-import-resolver-typescript") ;;
  runCommand (lit "npm install --save-dev --save-exact prettier") ;;
  runCommand (lit "npm install --save-dev  @sindresorhus/tsconfig").

(** The hammer sign U+1F528 is a surrogate pair. *)
Definition banner : jsstring := [55357; 56616]%N ++ lit " @rpappa/create".

(** [const isMonorepo = await checkCreateMonorepo(!isCreatingWorkspace)] with
    [isCreatingWorkspace = Boolean(createWorkspace)]. *)
Definition resolveMonorepo (createWorkspace : option jsstring) : Prog bool :=
  checkCreateMonorepo (negb (BooleanS createWorkspace)).

(** [const scope = await getScope(!isMonorepo && !isCreatingWorkspace)]. *)
Definition resolveScope (isMonorepo isCreatingWorkspace : bool) : Prog jsstring :=
  getScope (negb isMonorepo && negb isCreatingWorkspace).

(** Everything after [checkEmptyDirectory] has returned. *)
Definition afterEmptyCheck (isEmpty : bool) : Prog unit :=
  createWorkspace <- checkCreateWorkspace isEmpty ;;
  let isCreatingWorkspace := BooleanS createWorkspace in
  isMonorepo <- resolveMonorepo createWorkspace ;;
  scope <- resolveScope isMonorepo isCreatingWorkspace ;;
  checkPackageJson scope ;;
  (if negb isCreatingWorkspace then rootSetup else Ret tt) ;;
  rootLicense <- getPackageJsonLicense (join [cwd; lit "package.json"]) ;;
  (if isMonorepo then monorepoFlow scope rootLicense
   else if isCreatingWorkspace then workspaceFlow scope createWorkspace rootLicense
   else singleFlow scope rootLicense) ;;
  if negb (match rootLicense with Some _ => true | None => false end)
     && (isMonorepo || isCreatingWorkspace)
  then console LError
         (lit "No license found in root package.json, please check child packages manually if needed")
  else Ret tt.

(** The module body, top to bottom. *)
Definition main : Prog unit :=
  console LLog banner ;;
  isEmpty <- checkEmptyDirectory ;;
  afterEmptyCheck isEmpty.

End Cli.

(** ** The specification's words

    Scope normalization as the specification states it, to compare
    [getScope] with. *)
Definition normalizedScope (s : jsstring) : jsstring :=
  if eqb s [] then []
  else if startsWith s (lit "@") then s
  else lit "@" ++ s.

(** The question [getScope] asks. *)
Definition scopeQuestion (isOptional : bool) : jsstring :=
  lit "Scope" ++ (if isOptional then lit " (optional)" else []).

(** The commands that create or provision the application package. *)
Definition appCommand (command : jsstring) : bool :=
  startsWith command (lit "npm init -y -w ./packages/app")
  || startsWith command (lit "npm -w ./packages/app")
  || startsWith command (lit "npm install -w ./packages/app").

(** The commands that create or provision the library package. *)
Definition libCommand (command : jsstring) : bool :=
  startsWith command (lit "npm init -y -w ./packages/lib")
  || startsWith command (lit "npm -w ./packages/lib")
  || startsWith command (lit "npm install -w ./packages/lib").

(** ** Kinds of events *)

(** A question put to the user. *)
Definition isPrompt (ev : Event) : bool :=
  match ev with
  | EvConfirm _ _ | EvText _ _ => true
  | _ => false
  end.

(** An event that changes the disk or runs a command. *)
Definition mutates (ev : Event) : bool :=
  match ev with
  | EvWriteFile _ _ _ | EvCopyFile _ _ _ | EvMkdir _ _ | EvExec _ _ => true
  | _ => false
  end.

(** [Phased P Q p]: every run of [p] is a stretch of [P] events followed by
    a stretch of [Q] events. *)
Definition Phased {A : Type} (P Q : Event -> Prop) (p : Prog A) : Prop :=
  forall (W : Type) (env : Env W) (w : W),
    exists t1 t2, trace env p w = t1 ++ t2 /\ Forall P t1 /\ Forall Q t2.

(** The entries of a listing that [stats.isFile()] kept. *)
Definition regularFiles (entries : list jsstring) (kinds : list bool) : list jsstring :=
  map fst (filter snd (combine entries kinds)).

(** The [fs.stat] events of [allFiles] when every one succeeded. *)
Definition statEvents (join : list jsstring -> jsstring) (dir : jsstring)
    (entries : list jsstring) (kinds : list bool) : list Event :=
  map (fun fk => EvStat (join [dir; fst fk]) (Ok (snd fk))) (combine entries kinds).

(** The [fs.copyFile] events of [copyFiles] when every one succeeded. *)
Definition copyEvents (join : list jsstring -> jsstring) (fromDir toDir : jsstring)
    (files : list jsstring) : list Event :=
  map (fun file => EvCopyFile (join [fromDir; file]) (join [toDir; undot file]) (Ok tt)) files.



(** A step of the monorepo flow before either package is provisioned: the
    lint configuration is read and written, the compiler is installed in
    the root and the workspace of the library is created. *)
Definition SetupStep (join : list jsstring -> jsstring) (cwd scope : jsstring)
    (ev : Event) : Prop :=
  match ev with
  | EvConsole _ _ => True
  | EvReadFile file _ | EvWriteFile file _ _ => file = join [cwd; lit ".eslintrc.cjs"]
  | EvExec command _ =>
      command = lit "npm install --save-dev typescript @sindresorhus/tsconfig" \/
      command = lit "npm init -y -w ./packages/lib " ++
                (if eqb scope [] then [] else lit "--scope=" ++ scope)
  | _ => False
  end.

(** A step of the package in [directory]: what it reads, writes, makes or
    copies to lies in [directory]; what it lists, examines or copies from
    lies in a directory of [templates]; its commands are those of this
    package ([mine]) and not of the other one ([other]); it asks nothing. *)
Definition PackageStep (join : list jsstring -> jsstring) (templates directory : jsstring)
    (mine other : jsstring -> bool) (ev : Event) : Prop :=
  match ev with
  | EvConsole _ _ | EvFirstRejected _ _ => True
  | EvReaddir dir _ => exists d, dir = join [templates; d]
  | EvStat file _ => exists d x, file = join [join [templates; d]; x]
  | EvCopyFile from to _ =>
      (exists d x, from = join [join [templates; d]; x]) /\
      (exists x, to = join [directory; x])
  | EvReadFile file _ | EvWriteFile file _ _ | EvMkdir file _ =>
      exists x, file = join [directory; x]
  | EvExec command _ => mine command = true /\ other command = false
  | EvConfirm _ _ | EvText _ _ | EvAccess _ _ => False
  end.

(** A step of the monorepo flow after both packages: the scripts of the
    root manifest, then build, lint and test of all workspaces. *)
Definition RootStep (ev : Event) : Prop :=
  match ev with
  | EvConsole _ _ => True
  | EvExec command _ =>
      In command
        [lit "npm pkg set scripts.build=" ++ dq ++ lit "npm run build -ws" ++ dq;
         lit "npm pkg set scripts.lint=" ++ dq ++ lit "npm run lint -ws" ++ dq;
         lit "npm pkg set scripts.test=" ++ dq ++ lit "npm run test -ws" ++ dq;
         lit "npm run build"; lit "npm run lint"; lit "npm run test"]
  | _ => False
  end.

(** ** A scripted environment

    A test double for the collaborators: prompts are answered from two
    queues, commands meet the scripted children (by default one that exits
    with code 0), the working directory lists [entries], every file reads
    as [document] and, of several rejections, the first started came first. *)

Module Fake.

Record World := {
  entries : list jsstring;
  confirms : list (option bool);
  texts : list (option jsstring);
  document : jsstring;
  children : list Spawned
}.

Definition answerConfirm (w : World) : option bool * World :=
  (hd None (confirms w),
   {| entries := entries w; confirms := tl (confirms w); texts := texts w;
      document := document w; children := children w |}).

Definition answerText (w : World) : option jsstring * World :=
  (hd None (texts w),
   {| entries := entries w; confirms := confirms w; texts := tl (texts w);
      document := document w; children := children w |}).

Definition spawn (w : World) : Spawned * World :=
  (hd (Piped [ChildExit (Some 0%Z)]) (children w),
   {| entries := entries w; confirms := confirms w; texts := texts w;
      document := document w; children := tl (children w) |}).

Definition env : Env World :=
  fun X e =>
    match e in Effect X return World -> X * World with
    | Console _ _ => fun w => (tt, w)
    | PromptConfirm _ => answerConfirm
    | PromptText _ => answerText
    | Readdir _ => fun w => (Ok (entries w), w)
    | Access _ =>
        fun w =>
          (if includes (entries w) (lit "package.json") then Ok tt
           else Err (JsError (lit "ENOENT")), w)
    | ReadFile _ => fun w => (Ok (document w), w)
    | WriteFile _ _ => fun w => (Ok tt, w)
    | Stat _ => fun w => (Ok true, w)
    | CopyFile _ _ => fun w => (Ok tt, w)
    | Mkdir _ => fun w => (Ok tt, w)
    | Exec _ => spawn
    | FirstRejected _ => fun w => (0, w)
    end.

(** [path.join] by plain concatenation with slashes. *)
Fixpoint join (parts : list jsstring) : jsstring :=
  match parts with
  | [] => lit "."
  | [p] => p
  | p :: ps => p ++ lit "/" ++ join ps
  end.

(** A path with dots and a JSON value as text. *)
Fixpoint dotted (path : list jsstring) : jsstring :=
  match path with
  | [] => []
  | [p] => p
  | p :: ps => p ++ lit "." ++ dotted ps
  end.

Fixpoint render (j : Json) : jsstring :=
  match j with
  | JString s => dq ++ s ++ dq
  | JArray items => lit "[" ++ List.concat (map render items) ++ lit "]"
  end.

(** An editor that appends the edit to the document: a space, the path, an
    equals sign and the value. *)
Definition jsonc_set (text : jsstring) (path : list jsstring) (value : Json)
  : result jsstring :=
  Ok (text ++ lit " " ++ dotted path ++ lit "=" ++ render value).

Definition license_of (_ : jsstring) : result (option jsstring) := Ok (Some (lit "MIT")).

Definition world (entries : list jsstring) (confirms : list (option bool))
    (texts : list (option jsstring)) (document : jsstring) : World :=
  {| entries := entries; confirms := confirms; texts := texts;
     document := document; children := [] |}.

End Fake.

(** * Properties *)

(** ** The model on concrete inputs *)

Example trim_both_ends : trim (lit "  @foo  ") = lit "@foo".
Proof. reflexivity. Qed.

Example trim_no_break_space : trim [160; 64; 97; 8232]%N = lit "@a".
Proof. reflexivity. Qed.

Example split_scope_flag : split 61%N (lit "--scope=@foo") = [lit "--scope"; lit "@foo"].
Proof. reflexivity. Qed.

Example replace_first_only : replace (lit "a-b-c") (lit "-") (lit "+") = lit "a+b-c".
Proof. reflexivity. Qed.

Example replace_absent : replace (lit "abc") (lit "-") (lit "+") = lit "abc".
Proof. reflexivity. Qed.

Example replace_patterns : replace (lit "a-b") (lit "-") (lit "<$$|$&|$1>") = lit "a<$|-|$1>b".
Proof. reflexivity. Qed.

Example undot_gitignore : undot (lit "dotgitignore") = lit ".gitignore".
Proof. reflexivity. Qed.

Example exit_code_message : exitError (Some 127%Z) = JsError (lit "Process exited with code 127").
Proof. reflexivity. Qed.

Example workspace_long_flag :
  CREATE_WORKSPACE_ARG [lit "node"; lit "cli.js"; lit "--workspace=packages/foo"]
  = lit "packages/foo".
Proof. reflexivity. Qed.

Example workspace_short_flag :
  CREATE_WORKSPACE_ARG [lit "node"; lit "cli.js"; lit "-w"; lit "packages/newLib"]
  = lit "packages/newLib".
Proof. reflexivity. Qed.

Example workspace_short_flag_last : CREATE_WORKSPACE_ARG [lit "node"; lit "cli.js"; lit "-w"] = [].
Proof. reflexivity. Qed.

Example flags_of_readme :
  let argv := [lit "node"; lit "cli.js"; lit "-y"; lit "-m"; lit "--scope=@foo"] in
  YES_ARG argv = true /\ MONOREPO_ARG argv = true /\ SCOPE_ARG argv = lit "@foo" /\
  CREATE_WORKSPACE_ARG argv = [].
Proof. repeat split; reflexivity. Qed.

Example exit_after_error_stays_rejected :
  awaitChild [ChildError (JsError (lit "ENOENT")); ChildExit (Some 0%Z)]
  = Throw (JsError (lit "ENOENT")).
Proof. reflexivity. Qed.

(** The README's unattended monorepo, every command succeeding. *)
Example monorepo_run_returns :
  outcome Fake.env
    (main [lit "node"; lit "cli.js"; lit "-y"; lit "-m"; lit "--scope=@foo"]
       (lit "/work") (lit "/pkg/src/cli.js") Fake.join Fake.jsonc_set Fake.license_of)
    (Fake.world [] [] [] (lit "{}"))
  = Returned tt.
Proof. vm_compute. reflexivity. Qed.

(** A child without streams: the executor throws at [child.stdout.pipe]. *)
Example command_without_stdio :
  run Fake.env (runCommand (lit "npm run build"))
    {| Fake.entries := []; Fake.confirms := []; Fake.texts := []; Fake.document := [];
       Fake.children := [NoStdio] |}
  = (Thrown (JsTypeError (lit "Cannot read properties of undefined (reading 'pipe')")),
     [EvConsole LInfo (lit "Running command: npm run build");
      EvExec (lit "npm run build") NoStdio],
     Fake.world [] [] [] []).
Proof. reflexivity. Qed.

(** [Promise.all] over three promises two of which reject: the event loop
    tells which rejection came first. *)
Example promise_all_two_rejections :
  run Fake.env
    (promiseAll [Throw (JsError (lit "EACCES")); Ret 1%nat; Throw (JsError (lit "ENOENT"))])
    (Fake.world [] [] [] [])
  = (Thrown (JsError (lit "EACCES")),
     [EvFirstRejected [JsError (lit "EACCES"); JsError (lit "ENOENT")] 0],
     Fake.world [] [] [] []).
Proof. reflexivity. Qed.

(** In the unattended monorepo the last step of the library (its test
    command, exited with code 0) is followed at once by the creation of the
    application's workspace. *)
Example monorepo_library_then_application :
  let tr :=
    trace Fake.env
      (monorepoFlow (lit "/work") (lit "/pkg/src/cli.js") Fake.join Fake.jsonc_set
         (lit "@foo") (Some (lit "MIT")))
      (Fake.world [lit "dotgitignore"] [] [] (lit "{}")) in
  nth_error tr 49
    = Some (EvExec (lit "npm -w ./packages/lib run test") (Piped [ChildExit (Some 0%Z)])) /\
  nth_error tr 51
    = Some (EvExec (lit "npm init -y -w ./packages/app --scope=@foo")
              (Piped [ChildExit (Some 0%Z)])) /\
  nth_error tr 66 = Some (EvMkdir (lit "/work/packages/app/src") (Ok tt)).
Proof. vm_compute. repeat split. Qed.

(** ** Running sequences *)

Lemma run_bind {W A B : Type} (env : Env W) (p : Prog A) (f : A -> Prog B) (w : W) :
  run env (bind p f) w =
  match run env p w with
  | (Returned a, tr, w1) =>
      let '(o, tr2, w2) := run env (f a) w1 in (o, tr ++ tr2, w2)
  | (Thrown e, tr, w1) => (Thrown e, tr, w1)
  | (Exited c, tr, w1) => (Exited c, tr, w1)
  | (Hung, tr, w1) => (Hung, tr, w1)
  end.
Proof.
  revert w. induction p as [a|e|c| |X e k IH]; intros w; simpl; try reflexivity.
  - destruct (run env (f a) w) as [[o tr] w2]. reflexivity.
  - destruct (env X e w) as [x w1]. rewrite IH.
    destruct (run env (k x) w1) as [[o tr] w2].
    destruct o as [a|e'|c|]; try reflexivity.
    destruct (run env (f a) w2) as [[o2 tr2] w3]. reflexivity.
Qed.

Lemma run_try_catch {W A : Type} (env : Env W) (p : Prog A) (h : Error -> Prog A) (w : W) :
  run env (try_catch p h) w =
  match run env p w with
  | (Thrown e, tr, w1) =>
      let '(o, tr2, w2) := run env (h e) w1 in (o, tr ++ tr2, w2)
  | r => r
  end.
Proof.
  revert w. induction p as [a|e|c| |X e k IH]; intros w; simpl; try reflexivity.
  - destruct (run env (h e) w) as [[o tr] w2]. reflexivity.
  - destruct (env X e w) as [x w1]. rewrite IH.
    destruct (run env (k x) w1) as [[o tr] w2].
    destruct o as [a|e'|c|]; try reflexivity.
    destruct (run env (h e') w2) as [[o2 tr2] w3]. reflexivity.
Qed.

Lemma truthy_false (s : jsstring) : truthy s = false <-> s = [].
Proof. destruct s; simpl; split; congruence. Qed.

Lemma eqb_eq (a b : jsstring) : eqb a b = true <-> a = b.
Proof. unfold eqb. destruct (list_eq_dec N.eq_dec a b); split; congruence. Qed.

(** ** The create-monorepo decision *)

(** C7. When the resolved workspace path is non-empty (a workspace is being
    created) the decision is [false], nothing is asked, and the warning is
    printed exactly when the monorepo flag was given; otherwise the flag
    decides when present, and else the answer to the yes/no prompt. *)
Theorem monorepo_decision {W : Type} (env : Env W) (w : W)
    (argv : list jsstring) (createWorkspace : option jsstring) :
  run env (resolveMonorepo argv createWorkspace) w =
  if BooleanS createWorkspace then
    if MONOREPO_ARG argv then
      (Returned false,
       [EvConsole LWarn (lit "Ignoring --monorepo flag since creating a workspace")],
       snd (env _ (Console LWarn (lit "Ignoring --monorepo flag since creating a workspace")) w))
    else (Returned false, [], w)
  else if MONOREPO_ARG argv then (Returned true, [], w)
  else
    let (answer, w1) := env _ (PromptConfirm (lit "Create monorepo?")) w in
    (Returned (BooleanB answer), [EvConfirm (lit "Create monorepo?") answer], w1).
Proof.
  unfold resolveMonorepo, checkCreateMonorepo.
  destruct (BooleanS createWorkspace); simpl;
    destruct (MONOREPO_ARG argv); simpl; try reflexivity.
  all: destruct (env _ _ w) as [x w1]; try destruct x; reflexivity.
Qed.

(** ** The scope *)

Lemma run_noScope {W : Type} (env : Env W) (w : W) (isOptional : bool) :
  run env (noScope isOptional) w =
  (if isOptional then Returned [] else Thrown (JsError (lit "Scope is required")), [], w).
Proof. destruct isOptional; reflexivity. Qed.

(** What [getScope] does with a flag value. *)
Lemma run_getScope_flag {W : Type} (env : Env W) (w : W) (argv : list jsstring)
    (isOptional : bool) :
  truthy (SCOPE_ARG argv) = true ->
  run env (getScope argv isOptional) w =
  (Returned ((if startsWith (SCOPE_ARG argv) (lit "@") then [] else lit "@") ++ SCOPE_ARG argv),
   [], w).
Proof.
  intros H. unfold getScope. rewrite H.
  destruct (startsWith (SCOPE_ARG argv) (lit "@")); reflexivity.
Qed.

(** What [getScope] does with a prompt answer. *)
Lemma run_getScope_prompt {W : Type} (env : Env W) (w w1 : W) (argv : list jsstring)
    (isOptional : bool) (answer : option jsstring) :
  SCOPE_ARG argv = [] ->
  env _ (PromptText (scopeQuestion isOptional)) w = (answer, w1) ->
  run env (getScope argv isOptional) w =
  (match answer with
   | None => if isOptional then Returned [] else Thrown (JsError (lit "Scope is required"))
   | Some value =>
       if negb (truthy value)
       then if isOptional then Returned [] else Thrown (JsError (lit "Scope is required"))
       else if eqb (trim value) [] || startsWith value (lit "@") then Returned (trim value)
       else Returned (lit "@" ++ value)
   end, [EvText (scopeQuestion isOptional) answer], w1).
Proof.
  intros Hflag Henv. unfold getScope. rewrite Hflag.
  cbn [truthy bind trigger run]. fold (scopeQuestion isOptional).
  rewrite Henv. destruct answer as [value|].
  - destruct (truthy value); cbn [negb].
    + destruct (eqb (trim value) [] || startsWith value (lit "@")); reflexivity.
    + rewrite run_noScope. reflexivity.
  - rewrite run_noScope. reflexivity.
Qed.

(** C1, as the code has it. With no scope flag, an empty or declined answer
    fails the run with "Scope is required" exactly when monorepo mode or
    workspace creation was selected, and yields the empty scope when neither
    was; a non-empty flag value wins without any prompt. *)
Theorem scope_required_iff_monorepo_or_workspace {W : Type} (env : Env W) (w w1 : W)
    (argv : list jsstring) (isMonorepo isCreatingWorkspace : bool)
    (answer : option jsstring) :
  let question := scopeQuestion (negb isMonorepo && negb isCreatingWorkspace) in
  env _ (PromptText question) w = (answer, w1) ->
  BooleanS answer = false ->
  run env (resolveScope argv isMonorepo isCreatingWorkspace) w =
  if truthy (SCOPE_ARG argv) then
    (Returned ((if startsWith (SCOPE_ARG argv) (lit "@") then [] else lit "@")
               ++ SCOPE_ARG argv), [], w)
  else
    (if isMonorepo || isCreatingWorkspace
     then Thrown (JsError (lit "Scope is required"))
     else Returned [],
     [EvText question answer], w1).
Proof.
  intros question Henv Hempty. unfold resolveScope.
  destruct (truthy (SCOPE_ARG argv)) eqn:Hflag.
  - apply run_getScope_flag. exact Hflag.
  - apply truthy_false in Hflag.
    rewrite (run_getScope_prompt env w argv _ Hflag Henv).
    assert (Hopt : negb isMonorepo && negb isCreatingWorkspace
                   = negb (isMonorepo || isCreatingWorkspace))
      by (destruct isMonorepo, isCreatingWorkspace; reflexivity).
    fold question. rewrite Hopt.
    destruct answer as [value|]; simpl in Hempty.
    + rewrite Hempty. simpl.
      destruct (isMonorepo || isCreatingWorkspace); reflexivity.
    + destruct (isMonorepo || isCreatingWorkspace); reflexivity.
Qed.

Lemma scope_required_iff_monorepo_or_workspace_witness :
  run Fake.env (resolveScope [] true false) (Fake.world [] [] [Some []] []) =
  (Thrown (JsError (lit "Scope is required")),
   [EvText (lit "Scope") (Some [])], Fake.world [] [] [] []).
Proof.
  exact (@scope_required_iff_monorepo_or_workspace _ Fake.env
           (Fake.world [] [] [Some []] []) (Fake.world [] [] [] [])
           [] true false (Some []) eq_refl eq_refl).
Defined.

(** C1, as stated, fails: with monorepo mode selected and no scope flag an
    empty answer fails the run, and with neither mode selected it does not. *)
Lemma scope_optional_when_monorepo_counterexample :
  outcome Fake.env (resolveScope [] true false) (Fake.world [] [] [Some []] [])
    = Thrown (JsError (lit "Scope is required")) /\
  outcome Fake.env (resolveScope [] false true) (Fake.world [] [] [None] [])
    = Thrown (JsError (lit "Scope is required")) /\
  outcome Fake.env (resolveScope [] false false) (Fake.world [] [] [Some []] [])
    = Returned [].
Proof. repeat split; reflexivity. Qed.

Lemma trimStart_at (s : jsstring) :
  startsWith s (lit "@") = true -> trimStart s = s.
Proof.
  destruct s as [|c s]; [reflexivity|].
  cbn [startsWith lit map list_ascii_of_string]. intros H.
  apply andb_prop in H. destruct H as [H _]. apply N.eqb_eq in H. subst c.
  reflexivity.
Qed.

Lemma trim_fixed_nonempty (s : jsstring) : trim s = s -> s <> [] -> eqb (trim s) [] = false.
Proof.
  intros Ht Hs. rewrite Ht. destruct (eqb s []) eqn:E; [|reflexivity].
  apply eqb_eq in E. contradiction.
Qed.

(** C6, as the code has it. A non-empty flag value is normalized as the
    specification says and is not trimmed. A prompt answer [s] gives: the
    empty scope when [s] is empty (and the prompt optional) or consists of
    whitespace only; [s] without its trailing whitespace when it starts with
    the marker; the marker followed by [s], untrimmed, otherwise. For an
    answer without surrounding whitespace this is the specification's
    normalization. *)
Theorem scope_normalization {W : Type} (env : Env W) (w w1 : W)
    (argv : list jsstring) (isOptional : bool) (s : jsstring) :
  env _ (PromptText (scopeQuestion isOptional)) w = (Some s, w1) ->
  outcome env (getScope argv isOptional) w =
    (if truthy (SCOPE_ARG argv) then Returned (normalizedScope (SCOPE_ARG argv))
     else if eqb s [] then
       if isOptional then Returned [] else Thrown (JsError (lit "Scope is required"))
     else if eqb (trim s) [] then Returned []
     else if startsWith s (lit "@") then Returned (trimEnd s)
     else Returned (lit "@" ++ s)) /\
  (SCOPE_ARG argv = [] -> trim s = s -> s <> [] \/ isOptional = true ->
   outcome env (getScope argv isOptional) w = Returned (normalizedScope s)).
Proof.
  intros Henv.
  assert (Hmain :
    outcome env (getScope argv isOptional) w =
    (if truthy (SCOPE_ARG argv) then Returned (normalizedScope (SCOPE_ARG argv))
     else if eqb s [] then
       if isOptional then Returned [] else Thrown (JsError (lit "Scope is required"))
     else if eqb (trim s) [] then Returned []
     else if startsWith s (lit "@") then Returned (trimEnd s)
     else Returned (lit "@" ++ s))).
  { unfold outcome. destruct (truthy (SCOPE_ARG argv)) eqn:Hflag.
    - rewrite (run_getScope_flag env w argv isOptional Hflag). cbn [fst].
      unfold normalizedScope.
      destruct (eqb (SCOPE_ARG argv) []) eqn:E.
      + apply eqb_eq in E. rewrite E in Hflag. discriminate.
      + destruct (startsWith (SCOPE_ARG argv) (lit "@")); reflexivity.
    - apply truthy_false in Hflag.
      rewrite (run_getScope_prompt env w argv isOptional Hflag Henv). cbn [fst].
      destruct s as [|c s]; [reflexivity|].
      cbn [truthy negb]. change (eqb (c :: s) []) with false. cbn iota.
      destruct (eqb (trim (c :: s)) []) eqn:Et.
      + apply eqb_eq in Et. rewrite Et. reflexivity.
      + cbn [orb]. destruct (startsWith (c :: s) (lit "@")) eqn:Hat; [|reflexivity].
        unfold trim. rewrite (trimStart_at _ Hat). reflexivity. }
  split; [exact Hmain|].
  intros Hflag Htrim Hs. rewrite Hmain. rewrite Hflag. cbn [truthy].
  unfold normalizedScope. destruct (eqb s []) eqn:E.
  - apply eqb_eq in E. destruct Hs as [Hs|Hs]; [contradiction|]. rewrite Hs. reflexivity.
  - assert (Hne : s <> []) by (intros H0; apply eqb_eq in H0; congruence).
    rewrite (trim_fixed_nonempty Htrim Hne).
    destruct (startsWith s (lit "@")) eqn:Hat; [|reflexivity].
    f_equal. unfold trim in Htrim. rewrite (trimStart_at _ Hat) in Htrim. exact Htrim.
Qed.

Lemma scope_normalization_witness :
  outcome Fake.env (getScope [] true) (Fake.world [] [] [Some (lit "@foo ")] [])
    = Returned (lit "@foo") /\
  outcome Fake.env (getScope [] false) (Fake.world [] [] [Some (lit "foo")] [])
    = Returned (normalizedScope (lit "foo")).
Proof.
  split.
  - exact (proj1 (@scope_normalization _ Fake.env
                    (Fake.world [] [] [Some (lit "@foo ")] []) (Fake.world [] [] [] [])
                    [] true (lit "@foo ") eq_refl)).
  - refine (proj2 (@scope_normalization _ Fake.env
                     (Fake.world [] [] [Some (lit "foo")] []) (Fake.world [] [] [] [])
                     [] false (lit "foo") eq_refl) eq_refl eq_refl _).
    left. discriminate.
Defined.

(** C6, as stated, fails for prompt answers: a single space is not empty
    and does not start with the marker, yet the scope is empty rather than
    the marker followed by the space; and an answer that starts with the
    marker loses its trailing space. *)
Lemma scope_normalization_counterexample :
  normalizedScope (lit " ") = lit "@ " /\
  outcome Fake.env (getScope [] true) (Fake.world [] [] [Some (lit " ")] [])
    = Returned [] /\
  normalizedScope (lit "@foo ") = lit "@foo " /\
  outcome Fake.env (getScope [] true) (Fake.world [] [] [Some (lit "@foo ")] [])
    = Returned (lit "@foo").
Proof. repeat split; reflexivity. Qed.

(** C10. With no scope flag, an answer that is not empty but consists of
    whitespace only yields the empty scope and no failure, whether the
    scope is optional or required; a flag value is returned whole, behind
    the marker when it lacks it, never trimmed. *)
Theorem whitespace_answer_passes {W : Type} (env : Env W) (w w1 : W)
    (argv : list jsstring) (isOptional : bool) (s : jsstring) :
  env _ (PromptText (scopeQuestion isOptional)) w = (Some s, w1) ->
  s <> [] ->
  forallb isWhiteSpace s = true ->
  run env (getScope argv isOptional) w =
  if truthy (SCOPE_ARG argv) then
    (Returned ((if startsWith (SCOPE_ARG argv) (lit "@") then [] else lit "@")
               ++ SCOPE_ARG argv), [], w)
  else (Returned [], [EvText (scopeQuestion isOptional) (Some s)], w1).
Proof.
  intros Henv Hne Hws.
  destruct (truthy (SCOPE_ARG argv)) eqn:Hflag.
  - apply run_getScope_flag. exact Hflag.
  - apply truthy_false in Hflag.
    rewrite (run_getScope_prompt env w argv isOptional Hflag Henv).
    assert (Htrim : trim s = []).
    { unfold trim. replace (trimStart s) with (@nil codeunit); [reflexivity|].
      clear - Hws. induction s as [|c s IH]; [reflexivity|].
      cbn [forallb] in Hws. apply andb_prop in Hws. destruct Hws as [Hc Hs].
      cbn [trimStart]. rewrite Hc. apply IH. exact Hs. }
    destruct s as [|c s]; [contradiction|].
    cbn [truthy negb]. rewrite Htrim. reflexivity.
Qed.

Lemma whitespace_answer_passes_witness :
  run Fake.env (getScope [] false) (Fake.world [] [] [Some (lit "  ")] []) =
  (Returned [], [EvText (lit "Scope") (Some (lit "  "))], Fake.world [] [] [] []).
Proof.
  refine (@whitespace_answer_passes _ Fake.env
            (Fake.world [] [] [Some (lit "  ")] []) (Fake.world [] [] [] [])
            [] false (lit "  ") eq_refl _ eq_refl).
  discriminate.
Defined.

(** ** The workspace path *)

Lemma run_trigger {W X : Type} (env : Env W) (e : Effect X) (w : W) :
  run env (trigger e) w = let (x, w1) := env _ e w in (Returned x, [observe e x], w1).
Proof. cbn [trigger run]. destruct (env X e w). reflexivity. Qed.

Lemma run_console {W : Type} (env : Env W) (level : Level) (msg : jsstring) (w : W) :
  run env (console level msg) w =
  (Returned tt, [EvConsole level msg], snd (env _ (Console level msg) w)).
Proof.
  unfold console. rewrite run_trigger. destruct (env _ _ w) as [[] w1]. reflexivity.
Qed.

Lemma run_access {W : Type} (env : Env W) (file : jsstring) (w : W) :
  run env (fs.access file) w =
  let (found, w1) := env _ (Access file) w in
  (match found with Ok a => Returned a | Err e => Thrown e end, [EvAccess file found], w1).
Proof.
  unfold fs.access. cbn [bind trigger run]. destruct (env _ _ w) as [[a|e] w1]; reflexivity.
Qed.

(** C8. Given that an empty directory holds no package.json, the resolved
    workspace path is empty whenever the directory is empty (with a warning
    when a flag value was supplied) and whenever package.json cannot be
    accessed; otherwise it is the flag value when one was supplied and else
    the answer to the free-text prompt. *)
Theorem workspace_path {W : Type} (env : Env W) (w w1 : W) (argv : list jsstring)
    (isEmpty : bool) (found : result unit) :
  env _ (Access (lit "./package.json")) w = (found, w1) ->
  (isEmpty = true -> found <> Ok tt) ->
  let flag := CREATE_WORKSPACE_ARG argv in
  let emptyWarning := lit "Ignoring --workspace flag since current directory is empty" in
  let manifestWarning := lit "Ignoring --workspace flag since no package.json found" in
  let question := lit "Workspace to create (e.g. packages/demoLib)" in
  run env (checkCreateWorkspace argv isEmpty) w =
  if isEmpty then
    if truthy flag
    then (Returned (Some []), [EvConsole LWarn emptyWarning],
          snd (env _ (Console LWarn emptyWarning) w))
    else (Returned (Some []), [EvAccess (lit "./package.json") found], w1)
  else
    match found with
    | Err _ =>
        if truthy flag
        then (Returned (Some []),
              [EvAccess (lit "./package.json") found; EvConsole LWarn manifestWarning],
              snd (env _ (Console LWarn manifestWarning) w1))
        else (Returned (Some []), [EvAccess (lit "./package.json") found], w1)
    | Ok _ =>
        if truthy flag
        then (Returned (Some flag), [EvAccess (lit "./package.json") found], w1)
        else
          let (answer, w2) := env _ (PromptText question) w1 in
          (Returned answer,
           [EvAccess (lit "./package.json") found; EvText question answer], w2)
    end.
Proof.
  intros Henv Hfs flag emptyWarning manifestWarning question.
  unfold checkCreateWorkspace. fold flag.
  assert (Hfound :
    run env (try_catch (fs.access (lit "./package.json") ;; Ret true) (fun _ => Ret false)) w
    = (Returned (match found with Ok _ => true | Err _ => false end),
       [EvAccess (lit "./package.json") found], w1)).
  { rewrite run_try_catch, run_bind, run_access, Henv. destruct found; reflexivity. }
  destruct isEmpty; cbn [andb].
  - destruct (truthy flag) eqn:Hflag.
    + rewrite run_bind, run_console. reflexivity.
    + rewrite run_bind, Hfound.
      destruct found as [[]|e]; [exfalso; apply Hfs; reflexivity|].
      cbn [negb]. reflexivity.
  - rewrite run_bind, Hfound. destruct found as [[]|e]; cbn [negb].
    + destruct (truthy flag); [reflexivity|].
      rewrite run_bind, run_trigger. fold question.
      destruct (env _ (PromptText question) w1) as [answer w2]. reflexivity.
    + destruct (truthy flag); [|reflexivity].
      rewrite run_bind, run_console. reflexivity.
Qed.

Lemma workspace_path_witness :
  run Fake.env
      (checkCreateWorkspace [lit "node"; lit "cli.js"; lit "-w"; lit "packages/demoLib"] true)
      (Fake.world [] [] [] []) =
  (Returned (Some []),
   [EvConsole LWarn (lit "Ignoring --workspace flag since current directory is empty")],
   Fake.world [] [] [] []).
Proof.
  refine (@workspace_path _ Fake.env (Fake.world [] [] [] []) (Fake.world [] [] [] [])
            [lit "node"; lit "cli.js"; lit "-w"; lit "packages/demoLib"] true
            (Err (JsError (lit "ENOENT"))) eq_refl _).
  discriminate.
Defined.

(** ** The process runner *)




Lemma dispatch_settled (c : Child) (ev : ChildEvent) :
  promise c <> Pending -> promise (dispatch c ev) = promise c.
Proof.
  intros H. destruct c as [[| |e0] i o s]; [contradiction| |];
    destruct ev as [e|[[|p|p]|]]; reflexivity.
Qed.

Lemma emitted_settled (events : list ChildEvent) (c : Child) :
  promise c <> Pending -> promise (fold_left dispatch events c) = promise c.
Proof.
  revert c. induction events as [|ev events IH]; intros c H; [reflexivity|].
  cbn [fold_left]. rewrite IH; rewrite dispatch_settled; auto.
Qed.



Lemma awaitChild_first (ev : ChildEvent) (rest : list ChildEvent) :
  awaitChild (ev :: rest) =
  match ev with
  | ChildExit (Some 0%Z) => Ret tt
  | ChildExit code => Throw (exitError code)
  | ChildError error => Throw error
  end.
Proof.
  unfold awaitChild, emitted. cbn [fold_left].
  rewrite emitted_settled; destruct ev as [e|[[|p|p]|]]; cbn; try reflexivity; discriminate.
Qed.

Lemma run_runCommand {W : Type} (env : Env W) (w : W) (command : jsstring) :
  run env (runCommand command) w =
  let w0 := snd (env _ (Console LInfo (lit "Running command: " ++ command)) w) in
  let (child, w1) := env _ (Exec command) w0 in
  (match child with
   | SpawnThrew error => Thrown error
   | NoStdio => Thrown pipeTypeError
   | Piped [] => Hung
   | Piped (ChildExit (Some 0%Z) :: _) => Returned tt
   | Piped (ChildExit code :: _) => Thrown (exitError code)
   | Piped (ChildError error :: _) => Thrown error
   end,
   [EvConsole LInfo (lit "Running command: " ++ command); EvExec command child], w1).
Proof.
  unfold runCommand. rewrite run_bind, run_console, run_bind, run_trigger.
  cbv zeta. destruct (env _ (Exec command) _) as [[error| |events] w1];
    [reflexivity|reflexivity|].
  destruct events as [|ev rest]; [reflexivity|].
  rewrite awaitChild_first. destruct ev as [e|[[|p|p]|]]; reflexivity.
Qed.




(** ** The empty-directory check *)

Lemma run_readdir {W : Type} (env : Env W) (dir : jsstring) (w : W) :
  run env (fs.readdir dir) w =
  let (listing, w1) := env _ (Readdir dir) w in
  (match listing with Ok files => Returned files | Err e => Thrown e end,
   [EvReaddir dir listing], w1).
Proof.
  unfold fs.readdir. cbn [bind trigger run]. destruct (env _ _ w) as [[a|e] w1]; reflexivity.
Qed.

Lemma run_checkEmptyDirectory {W : Type} (env : Env W) (w w1 w2 : W)
    (argv : list jsstring) (cwd : jsstring)
    (listing : result (list jsstring)) (answer : option bool) :
  let question := lit "Current directory is not empty, continue?" in
  env _ (Readdir cwd) w = (listing, w1) ->
  env _ (PromptConfirm question) w1 = (answer, w2) ->
  run env (checkEmptyDirectory argv cwd) w =
  match listing with
  | Err e => (Thrown e, [EvReaddir cwd listing], w1)
  | Ok files =>
      let isEmpty := Nat.eqb (List.length files) 0 in
      if negb isEmpty && negb (truthy (CREATE_WORKSPACE_ARG argv)) then
        if BooleanB answer
        then (Returned isEmpty, [EvReaddir cwd listing; EvConfirm question answer], w2)
        else (Exited 0,
              [EvReaddir cwd listing; EvConfirm question answer;
               EvConsole LLog (lit "Exiting...")],
              snd (env _ (Console LLog (lit "Exiting...")) w2))
      else (Returned isEmpty, [EvReaddir cwd listing], w1)
  end.
Proof.
  intros question Hdir Hask. unfold checkEmptyDirectory, isEmptyDirectory.
  rewrite !run_bind, run_readdir, Hdir.
  destruct listing as [files|e]; [|reflexivity].
  cbn [run app]. cbv zeta.
  destruct (negb (Nat.eqb (List.length files) 0) && negb (truthy (CREATE_WORKSPACE_ARG argv)));
    [|reflexivity].
  rewrite run_bind, run_trigger. fold question. rewrite Hask.
  destruct (BooleanB answer); cbn [negb]; [reflexivity|].
  rewrite run_bind, run_console. reflexivity.
Qed.

(** C5. The confirmation is asked exactly when the directory listing is
    not empty and no workspace flag value was supplied; when it is declined
    the whole run is: the banner, the directory listing, the question and
    "Exiting...", then exit code 0 - no file is written and no command run. *)
Theorem empty_directory_prompt {W : Type} (env : Env W) (w0 w1 w2 : W)
    (argv : list jsstring) (cwd filename : jsstring)
    (join : list jsstring -> jsstring)
    (jsonc_set : jsstring -> list jsstring -> Json -> result jsstring)
    (license_of : jsstring -> result (option jsstring))
    (listing : result (list jsstring)) (answer : option bool) :
  let w := snd (env _ (Console LLog banner) w0) in
  let question := lit "Current directory is not empty, continue?" in
  let nonEmpty := match listing with Ok (_ :: _) => true | _ => false end in
  env _ (Readdir cwd) w = (listing, w1) ->
  env _ (PromptConfirm question) w1 = (answer, w2) ->
  ((exists a, In (EvConfirm question a) (trace env (checkEmptyDirectory argv cwd) w)) <->
   nonEmpty = true /\ CREATE_WORKSPACE_ARG argv = []) /\
  (nonEmpty = true -> CREATE_WORKSPACE_ARG argv = [] -> BooleanB answer = false ->
   run env (main argv cwd filename join jsonc_set license_of) w0 =
   (Exited 0,
    [EvConsole LLog banner; EvReaddir cwd listing; EvConfirm question answer;
     EvConsole LLog (lit "Exiting...")],
    snd (env _ (Console LLog (lit "Exiting...")) w2))).
Proof.
  intros w question nonEmpty Hdir Hask.
  pose proof (run_checkEmptyDirectory env w argv cwd Hdir Hask) as Hrun.
  fold question in Hrun. split.
  - unfold trace. rewrite Hrun. subst nonEmpty.
    destruct listing as [[|file files]|e]; cbn [List.length Nat.eqb negb andb fst snd].
    + split; [intros [a [H|[]]]; discriminate | intros [H _]; discriminate].
    + destruct (truthy (CREATE_WORKSPACE_ARG argv)) eqn:Hflag; cbn [negb fst snd].
      * split; [intros [a [H|[]]]; discriminate|].
        intros [_ H]. rewrite H in Hflag. discriminate.
      * apply truthy_false in Hflag. split; [intros _; split; [reflexivity|exact Hflag]|].
        intros _. exists answer. destruct (BooleanB answer); cbn; auto.
    + split; [intros [a [H|[]]]; discriminate | intros [H _]; discriminate].
  - intros Hne Hflag Hno. unfold main.
    rewrite run_bind, run_console. fold w. rewrite run_bind, Hrun.
    subst nonEmpty. destruct listing as [[|file files]|e]; try discriminate.
    cbn [List.length Nat.eqb negb andb]. rewrite Hflag, Hno. reflexivity.
Qed.

Lemma empty_directory_prompt_witness :
  run Fake.env
      (main [lit "node"; lit "cli.js"] (lit "/work") (lit "/pkg/src/cli.js")
            Fake.join Fake.jsonc_set Fake.license_of)
      (Fake.world [lit "README.md"] [Some false] [] []) =
  (Exited 0,
   [EvConsole LLog banner;
    EvReaddir (lit "/work") (Ok [lit "README.md"]);
    EvConfirm (lit "Current directory is not empty, continue?") (Some false);
    EvConsole LLog (lit "Exiting...")],
   Fake.world [lit "README.md"] [] [] []).
Proof.
  exact (proj2 (@empty_directory_prompt _ Fake.env
                  (Fake.world [lit "README.md"] [Some false] [] [])
                  (Fake.world [lit "README.md"] [Some false] [] [])
                  (Fake.world [lit "README.md"] [] [] [])
                  [lit "node"; lit "cli.js"] (lit "/work") (lit "/pkg/src/cli.js")
                  Fake.join Fake.jsonc_set Fake.license_of
                  (Ok [lit "README.md"]) (Some false) eq_refl eq_refl)
               eq_refl eq_refl eq_refl).
Defined.

(** ** The lint-configuration edit *)

Lemma startsWith_app (s p : jsstring) :
  startsWith s p = true <-> exists rest, s = p ++ rest.
Proof.
  revert s. induction p as [|c p IH]; intros s; cbn [startsWith].
  - split; [intros _; exists s; reflexivity | reflexivity].
  - destruct s as [|d s].
    + split; [discriminate | intros [rest H]; discriminate].
    + split.
      * intros H. apply andb_prop in H. destruct H as [Hc Hp].
        apply N.eqb_eq in Hc. apply IH in Hp. destruct Hp as [rest ->].
        subst d. exists rest. reflexivity.
      * intros [rest H]. injection H as -> ->.
        rewrite N.eqb_refl. apply IH. exists rest. reflexivity.
Qed.

Lemma splitAtFirst_unfold (pat s : jsstring) :
  splitAtFirst pat s =
  if startsWith s pat then Some ([], skipn (List.length pat) s)
  else match s with
       | [] => None
       | c :: s' =>
           match splitAtFirst pat s' with
           | Some (b, a) => Some (c :: b, a)
           | None => None
           end
       end.
Proof. destruct s; reflexivity. Qed.

Lemma skipn_prefix (p rest : jsstring) : skipn (List.length p) (p ++ rest) = rest.
Proof. induction p as [|c p IH]; [reflexivity | exact IH]. Qed.

Lemma startsWith_skipn (pat s : jsstring) :
  startsWith s pat = true -> s = pat ++ skipn (List.length pat) s.
Proof.
  intros Hp. apply startsWith_app in Hp. destruct Hp as [rest ->].
  rewrite skipn_prefix. reflexivity.
Qed.

Lemma splitAtFirst_Some (pat s b a : jsstring) :
  splitAtFirst pat s = Some (b, a) -> s = b ++ pat ++ a.
Proof.
  revert b. induction s as [|c s IH]; intros b; rewrite splitAtFirst_unfold;
    destruct (startsWith _ pat) eqn:Hp; try discriminate.
  - intros H. injection H as <- <-. apply startsWith_skipn. exact Hp.
  - intros H. injection H as <- <-. apply startsWith_skipn. exact Hp.
  - destruct (splitAtFirst pat s) as [[b0 a0]|]; [|discriminate].
    intros H. injection H as <- <-. cbn [app]. f_equal. apply IH. reflexivity.
Qed.

Lemma splitAtFirst_None (pat s : jsstring) :
  splitAtFirst pat s = None -> forall b a, s <> b ++ pat ++ a.
Proof.
  induction s as [|c s IH]; rewrite splitAtFirst_unfold;
    destruct (startsWith _ pat) eqn:Hp; try discriminate; intros H b a Hs.
  - destruct b as [|d b]; [|discriminate].
    assert (startsWith [] pat = true) by (apply startsWith_app; exists a; exact Hs).
    congruence.
  - destruct b as [|d b].
    + assert (startsWith (c :: s) pat = true) by (apply startsWith_app; exists a; exact Hs).
      congruence.
    + injection Hs as _ Hs. destruct (splitAtFirst pat s) as [[b0 a0]|]; [discriminate|].
      exact (IH eq_refl b a Hs).
Qed.

Lemma getSubstitution_plain (matched before after template : jsstring) :
  forallb (fun c => negb (N.eqb c 36)) template = true ->
  getSubstitution matched before after template = template.
Proof.
  induction template as [|c t IH]; [reflexivity|].
  cbn [forallb]. intros H. apply andb_prop in H. destruct H as [Hc Ht].
  cbn [getSubstitution]. destruct (N.eqb c 36); [discriminate|].
  f_equal. apply IH. exact Ht.
Qed.

Lemma run_patchEslintImportInternal {W : Type} (env : Env W) (w w1 : W)
    (cwd : jsstring) (join : list jsstring -> jsstring) (scope eslintConfig : jsstring) :
  let file := join [cwd; lit ".eslintrc.cjs"] in
  let edited := replace eslintConfig importInternalPattern (importInternalRule scope) in
  env _ (ReadFile file) w = (Ok eslintConfig, w1) ->
  run env (patchEslintImportInternal cwd join scope) w =
  let (written, w2) := env _ (WriteFile file edited) w1 in
  (match written with Ok a => Returned a | Err e => Thrown e end,
   [EvReadFile file (Ok eslintConfig); EvWriteFile file edited written], w2).
Proof.
  intros file edited Hread. unfold patchEslintImportInternal, fs.readFile, fs.writeFile.
  cbn [bind trigger run settled]. fold file. rewrite Hread.
  cbn [bind trigger run settled]. fold edited.
  destruct (env _ (WriteFile file edited) w1) as [[a|e] w2]; reflexivity.
Qed.

(** The edit does nothing to a document that lacks the commented line. *)
Lemma eslint_edit_absent (scope eslintConfig : jsstring) :
  (forall before after, eslintConfig <> before ++ importInternalPattern ++ after) ->
  replace eslintConfig importInternalPattern (importInternalRule scope) = eslintConfig.
Proof.
  intros Habsent. unfold replace.
  destruct (splitAtFirst importInternalPattern eslintConfig) as [[b a]|] eqn:E;
    [|reflexivity].
  apply splitAtFirst_Some in E. destruct (Habsent b a E).
Qed.

(** With a scope free of dollar signs, the first commented line becomes the
    rule for that scope. *)
Lemma eslint_edit_plain_scope (scope eslintConfig before after : jsstring) :
  forallb (fun c => negb (N.eqb c 36)) scope = true ->
  splitAtFirst importInternalPattern eslintConfig = Some (before, after) ->
  eslintConfig = before ++ importInternalPattern ++ after /\
  replace eslintConfig importInternalPattern (importInternalRule scope) =
  before ++ importInternalRule scope ++ after.
Proof.
  intros Hplain Hsplit. split; [apply splitAtFirst_Some; exact Hsplit|].
  unfold replace. rewrite Hsplit. rewrite getSubstitution_plain; [reflexivity|].
  unfold importInternalRule. rewrite !forallb_app.
  unfold jsstring, codeunit in *. rewrite Hplain. reflexivity.
Qed.

(** C9, at a scope the code can receive ([--scope=@a$$b]): the commented
    line is present, and what is written is the rule for [@a$b], not for the
    supplied scope - the replacement string is read as a replacement
    pattern, in which two dollars stand for one. *)
Theorem eslint_edit_dollar_scope :
  let scope := lit "@a$$b" in
  let eslintConfig := lit "    " ++ importInternalPattern in
  let file := Fake.join [lit "/work"; lit ".eslintrc.cjs"] in
  run Fake.env (patchEslintImportInternal (lit "/work") Fake.join scope)
      (Fake.world [] [] [] eslintConfig) =
  (Returned tt,
   [EvReadFile file (Ok eslintConfig);
    EvWriteFile file (lit "    " ++ importInternalRule (lit "@a$b")) (Ok tt)],
   Fake.world [] [] [] eslintConfig) /\
  lit "    " ++ importInternalRule (lit "@a$b") <> lit "    " ++ importInternalRule scope.
Proof. split; [reflexivity | discriminate]. Qed.

(** ** Properties of every event of a run *)

Section Always.

Variable P : Event -> Prop.

Lemma Always_Ret {A : Type} (a : A) : Always P (Ret a).
Proof. intros W env w. constructor. Qed.

Lemma Always_Throw {A : Type} (e : Error) : Always P (@Throw A e).
Proof. intros W env w. constructor. Qed.

Lemma Always_Exit {A : Type} (c : Z) : Always P (@Exit A c).
Proof. intros W env w. constructor. Qed.

Lemma Always_Hang {A : Type} : Always P (@Hang A).
Proof. intros W env w. constructor. Qed.

Lemma Always_bind {A B : Type} (p : Prog A) (f : A -> Prog B) :
  Always P p -> (forall a, Always P (f a)) -> Always P (bind p f).
Proof.
  intros Hp Hf W env w. unfold trace. rewrite run_bind.
  specialize (Hp W env w). unfold trace in Hp.
  destruct (run env p w) as [[o tr] w1]. cbn [fst snd] in Hp.
  destruct o as [a|e|c|]; try exact Hp.
  specialize (Hf a W env w1). unfold trace in Hf.
  destruct (run env (f a) w1) as [[o2 tr2] w2]. cbn [fst snd] in *.
  apply Forall_app. split; assumption.
Qed.

Lemma Always_try_catch {A : Type} (p : Prog A) (h : Error -> Prog A) :
  Always P p -> (forall e, Always P (h e)) -> Always P (try_catch p h).
Proof.
  intros Hp Hh W env w. unfold trace. rewrite run_try_catch.
  specialize (Hp W env w). unfold trace in Hp.
  destruct (run env p w) as [[o tr] w1]. cbn [fst snd] in Hp.
  destruct o as [a|e|c|]; try exact Hp.
  specialize (Hh e W env w1). unfold trace in Hh.
  destruct (run env (h e) w1) as [[o2 tr2] w2]. cbn [fst snd] in *.
  apply Forall_app. split; assumption.
Qed.

Lemma Always_trigger {X : Type} (e : Effect X) :
  (forall x, P (observe e x)) -> Always P (trigger e).
Proof.
  intros H W env w. unfold trace. rewrite run_trigger.
  destruct (env X e w) as [x w1]. cbn [fst snd]. constructor; [apply H | constructor].
Qed.

Lemma Always_settled {A : Type} (r : result A) : Always P (settled r).
Proof. destruct r; [apply Always_Ret | apply Always_Throw]. Qed.

Lemma Always_awaitChild (events : list ChildEvent) : Always P (awaitChild events).
Proof.
  unfold awaitChild. destruct (promise (emitted events));
    [apply Always_Hang | apply Always_Ret | apply Always_Throw].
Qed.

Lemma Always_runCommand (command : jsstring) :
  P (EvConsole LInfo (lit "Running command: " ++ command)) ->
  (forall events, P (EvExec command events)) ->
  Always P (runCommand command).
Proof.
  intros Hlog Hexec. unfold runCommand, console.
  apply Always_bind; [apply Always_trigger; intros []; exact Hlog|]. intros _.
  apply Always_bind; [apply Always_trigger; exact Hexec|]. intros [error| |events].
  - apply Always_Throw.
  - apply Always_Throw.
  - apply Always_awaitChild.
Qed.

Lemma Always_attempt {A : Type} (p : Prog A) : Always P p -> Always P (attempt p).
Proof.
  intros Hp. unfold attempt. apply Always_try_catch.
  - apply Always_bind; [exact Hp | intros a; apply Always_Ret].
  - intros e. apply Always_Ret.
Qed.

Lemma Always_rejectAll {A : Type} (reasons : list Error) (first : Error) :
  (forall rs i, P (EvFirstRejected rs i)) -> Always P (@rejectAll A reasons first).
Proof.
  intros Hrace. unfold rejectAll. destruct reasons as [|e1 [|e2 reasons]];
    try apply Always_Throw.
  apply Always_bind; [apply Always_trigger; intros i; apply Hrace|].
  intros i. apply Always_Throw.
Qed.

Lemma Always_promiseAll {A : Type} (ps : list (Prog A)) :
  (forall rs i, P (EvFirstRejected rs i)) ->
  Forall (Always P) ps -> Always P (promiseAll ps).
Proof.
  intros Hrace Hps. unfold promiseAll.
  apply Always_bind;
    [|intros rs; destruct (allOk rs); [apply Always_Ret | apply Always_rejectAll, Hrace]].
  induction Hps as [|p ps Hp Hps IH]; cbn [gather]; [apply Always_Ret|].
  apply Always_bind; [apply Always_attempt; exact Hp|]. intros r.
  apply Always_bind; [exact IH|]. intros rs. apply Always_Ret.
Qed.

End Always.

Lemma Always_impl {A : Type} (P Q : Event -> Prop) (p : Prog A) :
  (forall ev, P ev -> Q ev) -> Always P p -> Always Q p.
Proof. intros H Hp W env w. eapply Forall_impl; [exact H | apply Hp]. Qed.

Section Limits.

Variables Pw Pc : jsstring -> Prop.

Local Ltac quiet :=
  apply Always_bind;
  [apply Always_trigger; intros; exact I | intros; apply Always_settled].

Lemma Always_console (level : Level) (msg : jsstring) : Always (Limits Pw Pc) (console level msg).
Proof. apply Always_trigger. intros; exact I. Qed.

Lemma Always_readdir (dir : jsstring) : Always (Limits Pw Pc) (fs.readdir dir).
Proof. unfold fs.readdir. quiet. Qed.

Lemma Always_access (file : jsstring) : Always (Limits Pw Pc) (fs.access file).
Proof. unfold fs.access. quiet. Qed.

Lemma Always_readFile (file : jsstring) : Always (Limits Pw Pc) (fs.readFile file).
Proof. unfold fs.readFile. quiet. Qed.

Lemma Always_stat (file : jsstring) : Always (Limits Pw Pc) (fs.stat file).
Proof. unfold fs.stat. quiet. Qed.

Lemma Always_copyFile (from to : jsstring) : Always (Limits Pw Pc) (fs.copyFile from to).
Proof. unfold fs.copyFile. quiet. Qed.

Lemma Always_mkdir (dir : jsstring) : Always (Limits Pw Pc) (fs.mkdir dir).
Proof. unfold fs.mkdir. quiet. Qed.

Lemma Always_writeFile (file data : jsstring) : Pw file -> Always (Limits Pw Pc) (fs.writeFile file data).
Proof.
  intros H. unfold fs.writeFile.
  apply Always_bind; [apply Always_trigger; intros; exact H | intros; apply Always_settled].
Qed.

Lemma Always_command (command : jsstring) : Pc command -> Always (Limits Pw Pc) (runCommand command).
Proof. intros H. apply Always_runCommand; [exact I | intros; exact H]. Qed.

Lemma Always_copyFiles (join : list jsstring -> jsstring) (fromDir toDir : jsstring) :
  Always (Limits Pw Pc) (copyFiles join fromDir toDir).
Proof.
  unfold copyFiles, allFiles.
  apply Always_bind; [apply Always_console|]. intros _.
  apply Always_bind.
  - apply Always_bind; [apply Always_readdir|]. intros dirContents.
    apply Always_bind; [|intros; apply Always_Ret].
    apply Always_promiseAll; [intros; exact I|].
    apply Forall_map, Forall_forall. intros file _.
    apply Always_bind; [apply Always_stat | intros; apply Always_Ret].
  - intros files. apply Always_promiseAll; [intros; exact I|].
    apply Forall_map, Forall_forall.
    intros file _. apply Always_copyFile.
Qed.

End Limits.

(** ** The compiler configuration *)

Lemma run_bind_Returned {W A B : Type} (env : Env W) (p : Prog A) (f : A -> Prog B)
    (w w' : W) (b : B) (tr : list Event) :
  run env (bind p f) w = (Returned b, tr, w') ->
  exists a t1 w1 t2,
    run env p w = (Returned a, t1, w1) /\
    run env (f a) w1 = (Returned b, t2, w') /\
    tr = t1 ++ t2.
Proof.
  rewrite run_bind. destruct (run env p w) as [[o t1] w1].
  destruct o as [a|e|c|]; try discriminate.
  destruct (run env (f a) w1) as [[o2 t2] w2] eqn:E. intros H. injection H as -> <- ->.
  exists a, t1, w1, t2. repeat split. exact E.
Qed.

Lemma run_readFile_Returned {W : Type} (env : Env W) (file doc : jsstring)
    (w w' : W) (tr : list Event) :
  run env (fs.readFile file) w = (Returned doc, tr, w') ->
  tr = [EvReadFile file (Ok doc)].
Proof.
  unfold fs.readFile. cbn [bind trigger run settled].
  destruct (env _ (ReadFile file) w) as [[a|e] w1]; cbn [bind settled run]; intros H;
    [injection H as -> <- _; reflexivity | discriminate].
Qed.

Lemma run_writeFile_Returned {W : Type} (env : Env W) (file data : jsstring)
    (w w' : W) (tr : list Event) :
  run env (fs.writeFile file data) w = (Returned tt, tr, w') ->
  tr = [EvWriteFile file data (Ok tt)].
Proof.
  unfold fs.writeFile. cbn [bind trigger run settled].
  destruct (env _ (WriteFile file data) w) as [[[]|e] w1]; cbn [bind settled run]; intros H;
    [injection H as <- _; reflexivity | discriminate].
Qed.

Lemma run_settled_Returned {W A : Type} (env : Env W) (r : result A) (a : A)
    (w w' : W) (tr : list Event) :
  run env (settled r) w = (Returned a, tr, w') -> r = Ok a /\ tr = [] /\ w' = w.
Proof.
  destruct r as [a0|e]; cbn [settled run]; intros H; [|discriminate].
  injection H as -> <- <-. auto.
Qed.

(** [Promise.all] fulfils only when every promise did. *)
Lemma run_allOk_Returned {W A : Type} (env : Env W) (rs : list (result A)) (l : list A)
    (w w' : W) (tr : list Event) :
  run env
    match allOk rs with
    | Ok l => Ret l
    | Err first => rejectAll (rejections rs) first
    end w = (Returned l, tr, w') ->
  allOk rs = Ok l /\ tr = [] /\ w' = w.
Proof.
  destruct (allOk rs) as [l0|first]; cbn [run]; intros H.
  - injection H as -> <- <-. auto.
  - unfold rejectAll in H. destruct (rejections rs) as [|e1 [|e2 reasons]];
      try discriminate.
    cbn [bind trigger run] in H. destruct (env _ _ w) as [i w1]. discriminate.
Qed.

(** One document read, patched and written back, then [k]. *)
Lemma run_patch_document {W : Type} (env : Env W)
    (jsonc_set : jsstring -> list jsstring -> Json -> result jsstring)
    (file : jsstring) (scope : option jsstring) (skipSetup : bool) (k : unit -> Prog unit)
    (w w' : W) (tr : list Event) :
  run env
    (tsconfigJsonc <- fs.readFile file ;;
     edited <- settled (patchTsconfigJson jsonc_set tsconfigJsonc scope skipSetup) ;;
     bind (fs.writeFile file edited) k) w = (Returned tt, tr, w') ->
  exists doc edited w1 rest,
    applyPatches jsonc_set doc (patches scope skipSetup) = Ok edited /\
    tr = [EvReadFile file (Ok doc); EvWriteFile file edited (Ok tt)] ++ rest /\
    run env (k tt) w1 = (Returned tt, rest, w').
Proof.
  intros H.
  apply run_bind_Returned in H. destruct H as (doc & t1 & w1 & t2 & Hread & H & ->).
  apply run_readFile_Returned in Hread. subst t1.
  apply run_bind_Returned in H. destruct H as (edited & t3 & w2 & t4 & Hpatch & H & ->).
  apply run_settled_Returned in Hpatch. destruct Hpatch as (Hpatch & -> & ->).
  apply run_bind_Returned in H. destruct H as ([] & t5 & w3 & t6 & Hwrite & H & ->).
  apply run_writeFile_Returned in Hwrite. subst t5.
  exists doc, edited, w3, t6. repeat split; assumption.
Qed.

(** The same when the write is the last statement. *)
Lemma run_patch_document_last {W : Type} (env : Env W)
    (jsonc_set : jsstring -> list jsstring -> Json -> result jsstring)
    (file : jsstring) (scope : option jsstring) (skipSetup : bool)
    (w w' : W) (tr : list Event) :
  run env
    (tsconfigJsonc <- fs.readFile file ;;
     edited <- settled (patchTsconfigJson jsonc_set tsconfigJsonc scope skipSetup) ;;
     fs.writeFile file edited) w = (Returned tt, tr, w') ->
  exists doc edited,
    applyPatches jsonc_set doc (patches scope skipSetup) = Ok edited /\
    tr = [EvReadFile file (Ok doc); EvWriteFile file edited (Ok tt)].
Proof.
  intros H.
  apply run_bind_Returned in H. destruct H as (doc & t1 & w1 & t2 & Hread & H & ->).
  apply run_readFile_Returned in Hread. subst t1.
  apply run_bind_Returned in H. destruct H as (edited & t3 & w2 & t4 & Hpatch & H & ->).
  apply run_settled_Returned in Hpatch. destruct Hpatch as (Hpatch & -> & ->).
  apply run_writeFile_Returned in H. subst t4.
  exists doc, edited. split; [exact Hpatch | reflexivity].
Qed.

(** The block returns only after these reads and writes, in this order. *)
Lemma run_patchTsconfigs_Returned {W : Type} (env : Env W)
    (join : list jsstring -> jsstring)
    (jsonc_set : jsstring -> list jsstring -> Json -> result jsstring)
    (scope directory workspace : jsstring) (w w' : W) (tr : list Event) :
  let buildFile := join [directory; lit "tsconfig.build.json"] in
  let tsFile := join [directory; lit "tsconfig.json"] in
  run env (patchTsconfigs join jsonc_set scope directory workspace) w = (Returned tt, tr, w') ->
  if truthy workspace then
    exists build editedBuild,
      applyPatches jsonc_set build [outDirPatch; includePatch] = Ok editedBuild /\
      if truthy scope then
        exists tsconfig edited,
          applyPatches jsonc_set tsconfig [pathsPatch scope] = Ok edited /\
          tr = [EvReadFile buildFile (Ok build); EvWriteFile buildFile editedBuild (Ok tt);
                EvReadFile tsFile (Ok tsconfig); EvWriteFile tsFile edited (Ok tt)]
      else
        tr = [EvReadFile buildFile (Ok build); EvWriteFile buildFile editedBuild (Ok tt)]
  else
    exists tsconfig edited,
      applyPatches jsonc_set tsconfig
        ([outDirPatch; includePatch] ++ if truthy scope then [pathsPatch scope] else [])
        = Ok edited /\
      tr = [EvReadFile tsFile (Ok tsconfig); EvWriteFile tsFile edited (Ok tt)].
Proof.
  intros buildFile tsFile. unfold patchTsconfigs. fold buildFile tsFile.
  destruct (truthy workspace).
  - intros H. apply run_patch_document in H.
    destruct H as (build & editedBuild & w1 & rest & Hbuild & -> & H).
    exists build, editedBuild. split; [exact Hbuild|].
    destruct (truthy scope) eqn:Hscope.
    + apply run_patch_document_last in H.
      destruct H as (tsconfig & edited & Hts & ->).
      exists tsconfig, edited. split; [|reflexivity].
      unfold patches in Hts. cbn [BooleanS] in Hts. rewrite Hscope in Hts. exact Hts.
    + cbn [run] in H. injection H as <- _. reflexivity.
  - intros H. apply run_patch_document_last in H.
    destruct H as (tsconfig & edited & Hts & ->).
    exists tsconfig, edited. split; [|reflexivity].
    unfold patches in Hts. cbn [BooleanS] in Hts. exact Hts.
Qed.

Ltac always_step :=
  first
    [ apply Always_Ret
    | apply Always_command
    | apply Always_copyFiles
    | apply Always_mkdir
    | apply Always_copyFile
    | apply Always_readFile
    | apply Always_writeFile
    | apply Always_console
    | apply Always_bind; [|intros ?]
    | match goal with
      | |- Always _ (match ?x with _ => _ end) => destruct x
      end
    | progress cbv zeta ].

Lemma Always_installAndCopy (filename : jsstring) (join : list jsstring -> jsstring)
    (scope directory workspace sourceFile testFile : jsstring) (license : option jsstring) :
  Always (Limits (eq (join [directory; lit "src/index.ts"])) anything)
    (installAndCopy filename join scope directory workspace sourceFile testFile license).
Proof. unfold installAndCopy. repeat always_step; first [exact I | reflexivity]. Qed.

Lemma Always_setManifest (workspace : jsstring) :
  Always (Limits nothing anything) (setManifest workspace).
Proof. unfold setManifest, patchPackageJson. repeat always_step; exact I. Qed.

Lemma Always_lintBuildTest (workspace : jsstring) :
  Always (Limits nothing anything) (lintBuildTest workspace).
Proof. unfold lintBuildTest. repeat always_step; exact I. Qed.

(** The two edits of the build document, and the edit of the path mapping,
    as calls of the editor. *)
Lemma applyPatches_build (jsonc_set : jsstring -> list jsstring -> Json -> result jsstring)
    (doc edited : jsstring) (more : list Patch) :
  applyPatches jsonc_set doc (outDirPatch :: includePatch :: more) = Ok edited ->
  exists withOutDir withInclude,
    jsonc_set doc [lit "compilerOptions"; lit "outDir"] (JString (lit "dist"))
      = Ok withOutDir /\
    jsonc_set withOutDir [lit "include"] (JArray [JString (lit "src")]) = Ok withInclude /\
    applyPatches jsonc_set withInclude more = Ok edited.
Proof.
  intros H. cbn [applyPatches outDirPatch includePatch path value] in H.
  destruct (jsonc_set doc [lit "compilerOptions"; lit "outDir"] (JString (lit "dist")))
    as [withOutDir|e] eqn:HoutDir; [|discriminate].
  destruct (jsonc_set withOutDir [lit "include"] (JArray [JString (lit "src")]))
    as [withInclude|e] eqn:Hinclude; [|discriminate].
  exists withOutDir, withInclude. split; [reflexivity|]. split; assumption.
Qed.

Lemma applyPatches_paths (jsonc_set : jsstring -> list jsstring -> Json -> result jsstring)
    (scope doc edited : jsstring) :
  applyPatches jsonc_set doc [pathsPatch scope] = Ok edited ->
  jsonc_set doc [lit "compilerOptions"; lit "paths"; scope ++ lit "/*"]
    (JArray [JString (lit "../*/src")]) = Ok edited.
Proof.
  intros H. cbn [applyPatches pathsPatch path value] in H.
  destruct (jsonc_set doc [lit "compilerOptions"; lit "paths"; scope ++ lit "/*"]
              (JArray [JString (lit "../*/src")])) as [withPaths|e]; [exact H | discriminate].
Qed.

(** C2. In a provisioning that returns, the compiler-configuration block
    runs once: before it the only [fs.writeFile] goes to [src/index.ts] (the
    template files are copied, not edited) and after it there is none. For
    a workspace member the block reads tsconfig.build.json and writes it
    back with [compilerOptions.outDir] set to "dist" and then [include] set
    to ["src"], and then - only when the scope is not empty - reads
    tsconfig.json and writes it back with the single edit
    [compilerOptions.paths[<scope>/*]] = ["../*/src"]. Otherwise it reads the
    sole tsconfig.json and writes it back with [outDir], then [include],
    then - only when the scope is not empty - the path mapping. Each edit
    is one call of the editor on the document the edit before it gave. *)
Theorem tsconfig_patched_once {W : Type} (env : Env W) (w w' : W) (tr : list Event)
    (filename : jsstring) (join : list jsstring -> jsstring)
    (jsonc_set : jsstring -> list jsstring -> Json -> result jsstring)
    (scope directory workspace sourceFile testFile : jsstring) (license : option jsstring) :
  let buildFile := join [directory; lit "tsconfig.build.json"] in
  let tsFile := join [directory; lit "tsconfig.json"] in
  run env
    (preparePackage filename join jsonc_set scope directory workspace sourceFile testFile license)
    w = (Returned tt, tr, w') ->
  exists before block after,
    tr = before ++ block ++ after /\
    Forall (Limits (eq (join [directory; lit "src/index.ts"])) anything) before /\
    Forall (Limits nothing anything) after /\
    if truthy workspace then
      exists build withOutDir editedBuild,
        jsonc_set build [lit "compilerOptions"; lit "outDir"] (JString (lit "dist"))
          = Ok withOutDir /\
        jsonc_set withOutDir [lit "include"] (JArray [JString (lit "src")])
          = Ok editedBuild /\
        if truthy scope then
          exists tsconfig edited,
            jsonc_set tsconfig [lit "compilerOptions"; lit "paths"; scope ++ lit "/*"]
              (JArray [JString (lit "../*/src")]) = Ok edited /\
            block =
              [EvReadFile buildFile (Ok build); EvWriteFile buildFile editedBuild (Ok tt);
               EvReadFile tsFile (Ok tsconfig); EvWriteFile tsFile edited (Ok tt)]
        else
          block =
            [EvReadFile buildFile (Ok build); EvWriteFile buildFile editedBuild (Ok tt)]
    else
      exists tsconfig withOutDir withInclude edited,
        jsonc_set tsconfig [lit "compilerOptions"; lit "outDir"] (JString (lit "dist"))
          = Ok withOutDir /\
        jsonc_set withOutDir [lit "include"] (JArray [JString (lit "src")])
          = Ok withInclude /\
        (if truthy scope
         then jsonc_set withInclude [lit "compilerOptions"; lit "paths"; scope ++ lit "/*"]
                (JArray [JString (lit "../*/src")]) = Ok edited
         else edited = withInclude) /\
        block = [EvReadFile tsFile (Ok tsconfig); EvWriteFile tsFile edited (Ok tt)].
Proof.
  intros buildFile tsFile H. unfold preparePackage in H.
  apply run_bind_Returned in H. destruct H as ([] & before & w1 & t1 & Hbefore & H & ->).
  apply run_bind_Returned in H. destruct H as ([] & block & w2 & t2 & Hblock & H & ->).
  apply run_bind_Returned in H. destruct H as ([] & t3 & w3 & t4 & Hmanifest & Hlint & ->).
  exists before, block, (t3 ++ t4). split; [reflexivity|]. split; [|split].
  - pose proof (Always_installAndCopy filename join scope directory workspace
                  sourceFile testFile license env w) as Hall.
    unfold trace in Hall. rewrite Hbefore in Hall. exact Hall.
  - apply Forall_app. split.
    + pose proof (Always_setManifest workspace env w2) as Hall.
      unfold trace in Hall. rewrite Hmanifest in Hall. exact Hall.
    + pose proof (Always_lintBuildTest workspace env w3) as Hall.
      unfold trace in Hall. rewrite Hlint in Hall. exact Hall.
  - pose proof (run_patchTsconfigs_Returned env join jsonc_set scope directory workspace
                  w1 Hblock) as Hdocs.
    cbv zeta in Hdocs. fold buildFile tsFile in Hdocs.
    destruct (truthy workspace).
    + destruct Hdocs as (build & editedBuild & Hbuild & Hdocs).
      apply applyPatches_build in Hbuild.
      destruct Hbuild as (withOutDir & withInclude & HoutDir & Hinclude & Hdone).
      cbn [applyPatches] in Hdone. injection Hdone as <-.
      exists build, withOutDir, withInclude. split; [exact HoutDir|].
      split; [exact Hinclude|].
      destruct (truthy scope); [|exact Hdocs].
      destruct Hdocs as (tsconfig & edited & Hpaths & ->).
      exists tsconfig, edited. split; [|reflexivity].
      apply applyPatches_paths. exact Hpaths.
    + destruct Hdocs as (tsconfig & edited & Hall & ->).
      cbn [app] in Hall. apply applyPatches_build in Hall.
      destruct Hall as (withOutDir & withInclude & HoutDir & Hinclude & Hdone).
      exists tsconfig, withOutDir, withInclude, edited.
      split; [exact HoutDir|]. split; [exact Hinclude|]. split; [|reflexivity].
      destruct (truthy scope).
      * apply applyPatches_paths. exact Hdone.
      * cbn [applyPatches] in Hdone. injection Hdone as <-. reflexivity.
Qed.

Lemma tsconfig_patched_once_witness :
  let directory := lit "/work/packages/lib" in
  let buildFile := Fake.join [directory; lit "tsconfig.build.json"] in
  let tsFile := Fake.join [directory; lit "tsconfig.json"] in
  let provisioning :=
    preparePackage (lit "/pkg/src/cli.js") Fake.join Fake.jsonc_set (lit "@foo")
      directory (lit "-w ./packages/lib") (lit "src/index.ts") (lit "test/index.test.ts")
      (Some (lit "MIT")) in
  let w := Fake.world [lit "dotgitignore"] [] [] (lit "{}") in
  exists before build tsconfig after,
    trace Fake.env provisioning w =
      before ++
      [EvReadFile buildFile (Ok build);
       EvWriteFile buildFile
         (build ++ lit " compilerOptions.outDir=" ++ dq ++ lit "dist" ++ dq ++
          lit " include=[" ++ dq ++ lit "src" ++ dq ++ lit "]") (Ok tt);
       EvReadFile tsFile (Ok tsconfig);
       EvWriteFile tsFile
         (tsconfig ++ lit " compilerOptions.paths.@foo/*=[" ++ dq ++ lit "../*/src" ++ dq ++
          lit "]") (Ok tt)] ++
      after /\
    Forall (Limits (eq (Fake.join [directory; lit "src/index.ts"])) anything) before /\
    Forall (Limits nothing anything) after.
Proof.
  intros directory buildFile tsFile provisioning w.
  destruct (@tsconfig_patched_once _ Fake.env w (snd (run Fake.env provisioning w))
              (trace Fake.env provisioning w) (lit "/pkg/src/cli.js") Fake.join Fake.jsonc_set
              (lit "@foo") directory (lit "-w ./packages/lib") (lit "src/index.ts")
              (lit "test/index.test.ts") (Some (lit "MIT")) eq_refl)
    as (before & block & after & Htr & Hbefore & Hafter & Hblock).
  change (truthy (lit "-w ./packages/lib")) with true in Hblock.
  destruct Hblock as (build & withOutDir & editedBuild & HoutDir & Hinclude & Hblock).
  change (truthy (lit "@foo")) with true in Hblock.
  destruct Hblock as (tsconfig & edited & Hpaths & Hblock).
  exists before, build, tsconfig, after. split; [|split; assumption].
  rewrite Htr, Hblock. unfold Fake.jsonc_set in HoutDir, Hinclude, Hpaths.
  injection HoutDir as <-. injection Hinclude as <-. injection Hpaths as <-.
  rewrite <- !app_assoc. reflexivity.
Defined.

(** ** The order of the two packages *)



Ltac always_more :=
  first [ apply Always_settled | always_step ].

Lemma run_runCommand_Returned {W : Type} (env : Env W) (command : jsstring)
    (w w' : W) (tr : list Event) :
  run env (runCommand command) w = (Returned tt, tr, w') ->
  exists rest,
    tr = [EvConsole LInfo (lit "Running command: " ++ command);
          EvExec command (Piped (ChildExit (Some 0%Z) :: rest))].
Proof.
  rewrite run_runCommand. cbv zeta.
  destruct (env _ (Exec command) _) as [[error| |events] w1]; try discriminate.
  destruct events as [|[e|[[|p|p]|]] rest]; intros H; try discriminate.
  injection H as <- _. exists rest. reflexivity.
Qed.

Lemma run_lintBuildTest_Returned {W : Type} (env : Env W) (workspace : jsstring)
    (w w' : W) (tr : list Event) :
  run env (lintBuildTest workspace) w = (Returned tt, tr, w') ->
  exists lint build test,
    tr = [EvConsole LInfo (lit "Running command: " ++ lit "npm " ++ workspace ++ lit " run lint");
          EvExec (lit "npm " ++ workspace ++ lit " run lint")
            (Piped (ChildExit (Some 0%Z) :: lint));
          EvConsole LInfo (lit "Running command: " ++ lit "npm " ++ workspace ++ lit " run build");
          EvExec (lit "npm " ++ workspace ++ lit " run build")
            (Piped (ChildExit (Some 0%Z) :: build));
          EvConsole LInfo (lit "Running command: " ++ lit "npm " ++ workspace ++ lit " run test");
          EvExec (lit "npm " ++ workspace ++ lit " run test")
            (Piped (ChildExit (Some 0%Z) :: test))].
Proof.
  unfold lintBuildTest. intros H.
  apply run_bind_Returned in H. destruct H as ([] & t1 & w1 & t2 & H1 & H & ->).
  apply run_bind_Returned in H. destruct H as ([] & t3 & w2 & t4 & H2 & H3 & ->).
  apply run_runCommand_Returned in H1, H2, H3.
  destruct H1 as [lint ->], H2 as [build ->], H3 as [test ->].
  exists lint, build, test. reflexivity.
Qed.

(** [await] is associative, and a run depends on a continuation only
    through its runs. *)
Lemma run_bind_ext {W A B : Type} (env : Env W) (p : Prog A) (f g : A -> Prog B) (w : W) :
  (forall a w1, run env (f a) w1 = run env (g a) w1) ->
  run env (bind p f) w = run env (bind p g) w.
Proof.
  intros H. rewrite !run_bind. destruct (run env p w) as [[[a|e|c|] t1] w1]; try reflexivity.
  rewrite H. reflexivity.
Qed.

Lemma run_bind_assoc {W A B C : Type} (env : Env W) (p : Prog A) (f : A -> Prog B)
    (g : B -> Prog C) (w : W) :
  run env (bind (bind p f) g) w = run env (bind p (fun a => bind (f a) g)) w.
Proof.
  rewrite (run_bind env (bind p f) g), (run_bind env p f), (run_bind env p).
  destruct (run env p w) as [[[a|e|c|] t1] w1]; try reflexivity.
  rewrite (run_bind env (f a) g).
  destruct (run env (f a) w1) as [[[b|e|c|] t2] w2]; try reflexivity.
  destruct (run env (g b) w2) as [[o t3] w3]. rewrite app_assoc. reflexivity.
Qed.

(** Unfolding a program down to its effects, with the event of each one
    left to show. *)
Ltac always_events :=
  repeat first
    [ apply Always_Ret
    | apply Always_Throw
    | apply Always_settled
    | apply Always_runCommand; [|intros ?]
    | apply Always_promiseAll; [intros ? ?|apply Forall_map, Forall_forall; intros ? _]
    | apply Always_trigger; intros ?
    | apply Always_bind; [|intros ?]
    | match goal with
      | |- Always _ (match ?x with _ => _ end) => destruct x
      end
    | progress cbv zeta ].

Ltac package_step :=
  cbn [observe PackageStep];
  first
    [ exact I
    | split; reflexivity
    | eexists; reflexivity
    | do 2 eexists; reflexivity
    | split; [do 2 eexists; reflexivity | eexists; reflexivity] ].

(** The steps of [preparePackage] for the library and for the application
    stay in their own directory and run their own commands. *)
Lemma Always_provisionLib (cwd filename : jsstring) (join : list jsstring -> jsstring)
    (jsonc_set : jsstring -> list jsstring -> Json -> result jsstring)
    (scope : jsstring) (rootLicense : option jsstring) :
  Always
    (PackageStep join (join [filename; lit "../.."; lit "template-files"])
       (join [cwd; lit "packages/lib"]) libCommand appCommand)
    (provisionLib cwd filename join jsonc_set scope rootLicense).
Proof.
  unfold provisionLib, preparePackage, installAndCopy, patchTsconfigs, setManifest,
    lintBuildTest, patchPackageJson, copyFiles, allFiles, console,
    fs.readdir, fs.stat, fs.copyFile, fs.mkdir, fs.readFile, fs.writeFile.
  always_events; package_step.
Qed.

Lemma Always_provisionApp (cwd filename : jsstring) (join : list jsstring -> jsstring)
    (jsonc_set : jsstring -> list jsstring -> Json -> result jsstring)
    (scope : jsstring) (rootLicense : option jsstring) :
  Always
    (PackageStep join (join [filename; lit "../.."; lit "template-files"])
       (join [cwd; lit "packages/app"]) appCommand libCommand)
    (runCommand (initWorkspace appWorkspace scope) ;;
     provisionApp cwd filename join jsonc_set scope rootLicense).
Proof.
  unfold provisionApp, preparePackage, installAndCopy, patchTsconfigs, setManifest,
    lintBuildTest, patchPackageJson, copyFiles, allFiles, console,
    fs.readdir, fs.stat, fs.copyFile, fs.mkdir, fs.readFile, fs.writeFile.
  always_events; package_step.
Qed.

Lemma Always_monorepoSetup (cwd : jsstring) (join : list jsstring -> jsstring)
    (scope : jsstring) :
  Always (SetupStep join cwd scope)
    (patchEslintImportInternal cwd join scope ;;
     runCommand (lit "npm install --save-dev typescript @sindresorhus/tsconfig") ;;
     runCommand (initWorkspace libWorkspace scope)).
Proof.
  unfold patchEslintImportInternal, fs.readFile, fs.writeFile.
  always_events; cbn [observe SetupStep];
    first [exact I | reflexivity | left; reflexivity | right; reflexivity].
Qed.

Lemma Always_monorepoRoot :
  Always RootStep
    (runCommand (lit "npm pkg set scripts.build=" ++ dq ++ lit "npm run build -ws" ++ dq) ;;
     runCommand (lit "npm pkg set scripts.lint=" ++ dq ++ lit "npm run lint -ws" ++ dq) ;;
     runCommand (lit "npm pkg set scripts.test=" ++ dq ++ lit "npm run test -ws" ++ dq) ;;
     runCommand (lit "npm run build") ;;
     runCommand (lit "npm run lint") ;;
     runCommand (lit "npm run test")).
Proof.
  always_events; cbn [RootStep]; first [exact I | cbn [In]; tauto].
Qed.

(** C3. Every run of the monorepo flow is four stretches of events, in this
    order: the setup (the lint configuration, the root install and the
    creation of the library's workspace); steps of the library package,
    which touch only packages/lib and run only the library's commands;
    steps of the application package, from the creation of its workspace
    on, which touch only packages/app and run only the application's
    commands; and the commands of the root. As soon as there is any step of
    the application, or anything after, the stretch of the library is a
    complete run of its provisioning that has returned, ending with its own
    lint, build and test commands, each exited with code 0. *)
Theorem library_before_application {W : Type} (env : Env W) (w : W)
    (cwd filename : jsstring) (join : list jsstring -> jsstring)
    (jsonc_set : jsstring -> list jsstring -> Json -> result jsstring)
    (scope : jsstring) (rootLicense : option jsstring) :
  let templates := join [filename; lit "../.."; lit "template-files"] in
  let libDir := join [cwd; lit "packages/lib"] in
  let appDir := join [cwd; lit "packages/app"] in
  exists setup lib app root,
    trace env (monorepoFlow cwd filename join jsonc_set scope rootLicense) w
      = setup ++ lib ++ app ++ root /\
    Forall (SetupStep join cwd scope) setup /\
    Forall (PackageStep join templates libDir libCommand appCommand) lib /\
    Forall (PackageStep join templates appDir appCommand libCommand) app /\
    Forall RootStep root /\
    (app ++ root <> [] ->
     exists w1 w2 steps lint build test,
       run env (preparePackage filename join jsonc_set scope libDir (lit "-w ./packages/lib")
                  (lit "src/index.ts") (lit "test/index.test.ts") rootLicense) w1
         = (Returned tt, lib, w2) /\
       lib =
         steps ++
         [EvConsole LInfo (lit "Running command: npm -w ./packages/lib run lint");
          EvExec (lit "npm -w ./packages/lib run lint") (Piped (ChildExit (Some 0%Z) :: lint));
          EvConsole LInfo (lit "Running command: npm -w ./packages/lib run build");
          EvExec (lit "npm -w ./packages/lib run build") (Piped (ChildExit (Some 0%Z) :: build));
          EvConsole LInfo (lit "Running command: npm -w ./packages/lib run test");
          EvExec (lit "npm -w ./packages/lib run test") (Piped (ChildExit (Some 0%Z) :: test))]).
Proof.
  intros templates libDir appDir.
  pose (setupSteps :=
          patchEslintImportInternal cwd join scope ;;
          runCommand (lit "npm install --save-dev typescript @sindresorhus/tsconfig") ;;
          runCommand (initWorkspace libWorkspace scope)).
  pose (library := provisionLib cwd filename join jsonc_set scope rootLicense).
  pose (application :=
          runCommand (initWorkspace appWorkspace scope) ;;
          provisionApp cwd filename join jsonc_set scope rootLicense).
  pose (rootSteps :=
          runCommand (lit "npm pkg set scripts.build=" ++ dq ++ lit "npm run build -ws" ++ dq) ;;
          runCommand (lit "npm pkg set scripts.lint=" ++ dq ++ lit "npm run lint -ws" ++ dq) ;;
          runCommand (lit "npm pkg set scripts.test=" ++ dq ++ lit "npm run test -ws" ++ dq) ;;
          runCommand (lit "npm run build") ;;
          runCommand (lit "npm run lint") ;;
          runCommand (lit "npm run test")).
  assert (Hflow :
    run env (monorepoFlow cwd filename join jsonc_set scope rootLicense) w =
    run env (setupSteps ;; library ;; application ;; rootSteps) w).
  { unfold monorepoFlow, setupSteps, library, application, rootSteps. symmetry.
    rewrite run_bind_assoc. apply run_bind_ext. intros _ v1.
    rewrite run_bind_assoc. apply run_bind_ext. intros _ v2.
    apply run_bind_ext. intros _ v3. apply run_bind_ext. intros _ v4.
    rewrite run_bind_assoc. reflexivity. }
  unfold trace. rewrite Hflow. clear Hflow. rewrite run_bind.
  pose proof (Always_monorepoSetup cwd join scope env w) as Hsetup.
  fold setupSteps in Hsetup. unfold trace in Hsetup.
  destruct (run env setupSteps w) as [[oS setup] w1]. cbn [fst snd] in Hsetup.
  assert (Hstop : forall tr : list Event, tr = tr ++ [] ++ [] ++ [])
    by (intros tr; rewrite !app_nil_r; reflexivity).
  destruct oS as [[]|e|c|];
    try (exists setup, [], [], []; cbn [fst snd];
         repeat split; [apply Hstop|exact Hsetup|constructor..|intros Hany; destruct Hany; reflexivity]).
  rewrite run_bind.
  pose proof (Always_provisionLib cwd filename join jsonc_set scope rootLicense env w1) as Hlib.
  fold library in Hlib. unfold trace in Hlib.
  destruct (run env library w1) as [[oL lib] w2] eqn:EL. cbn [fst snd] in Hlib.
  destruct oL as [[]|e|c|];
    try (exists setup, lib, [], []; cbn [fst snd];
         repeat split; [rewrite !app_nil_r; reflexivity|exact Hsetup|exact Hlib|constructor..
                       |intros Hany; destruct Hany; reflexivity]).
  assert (Hdone :
    exists w1 w2 steps lint build test,
      run env (preparePackage filename join jsonc_set scope libDir (lit "-w ./packages/lib")
                 (lit "src/index.ts") (lit "test/index.test.ts") rootLicense) w1
        = (Returned tt, lib, w2) /\
      lib =
        steps ++
        [EvConsole LInfo (lit "Running command: npm -w ./packages/lib run lint");
         EvExec (lit "npm -w ./packages/lib run lint") (Piped (ChildExit (Some 0%Z) :: lint));
         EvConsole LInfo (lit "Running command: npm -w ./packages/lib run build");
         EvExec (lit "npm -w ./packages/lib run build") (Piped (ChildExit (Some 0%Z) :: build));
         EvConsole LInfo (lit "Running command: npm -w ./packages/lib run test");
         EvExec (lit "npm -w ./packages/lib run test") (Piped (ChildExit (Some 0%Z) :: test))]).
  { pose proof EL as Hsteps. unfold library, provisionLib, preparePackage in Hsteps.
    apply run_bind_Returned in Hsteps.
    destruct Hsteps as ([] & s1 & v1 & s2 & _ & Hsteps & E1).
    apply run_bind_Returned in Hsteps.
    destruct Hsteps as ([] & s3 & v2 & s4 & _ & Hsteps & E2).
    apply run_bind_Returned in Hsteps.
    destruct Hsteps as ([] & s5 & v3 & s6 & _ & Hsteps & E3).
    apply run_lintBuildTest_Returned in Hsteps.
    destruct Hsteps as (lint & build & test & E4).
    exists w1, w2, (s1 ++ s3 ++ s5), lint, build, test. split; [exact EL|].
    rewrite E1, E2, E3, E4, <- !app_assoc. reflexivity. }
  rewrite run_bind.
  pose proof (Always_provisionApp cwd filename join jsonc_set scope rootLicense env w2) as Happ.
  fold application in Happ. unfold trace in Happ.
  destruct (run env application w2) as [[oA app] w3]. cbn [fst snd] in Happ.
  destruct oA as [[]|e|c|];
    try (exists setup, lib, app, []; cbn [fst snd];
         repeat split; [rewrite !app_nil_r; reflexivity|exact Hsetup|exact Hlib|exact Happ
                       |constructor|intros _; exact Hdone]).
  pose proof (Always_monorepoRoot env w3) as Hroot.
  fold rootSteps in Hroot. unfold trace in Hroot.
  destruct (run env rootSteps w3) as [[oR root] w4]. cbn [fst snd] in *.
  exists setup, lib, app, root. repeat split; try assumption.
  intros _. exact Hdone.
Qed.

Lemma library_before_application_witness :
  let flow :=
    monorepoFlow (lit "/work") (lit "/pkg/src/cli.js") Fake.join Fake.jsonc_set
      (lit "@foo") (Some (lit "MIT")) in
  let w := Fake.world [lit "dotgitignore"] [] [] (lit "{}") in
  let templates := lit "/pkg/src/cli.js/../../template-files" in
  exists setup lib app root,
    trace Fake.env flow w = setup ++ lib ++ app ++ root /\
    Forall (SetupStep Fake.join (lit "/work") (lit "@foo")) setup /\
    Forall (PackageStep Fake.join templates (lit "/work/packages/lib") libCommand appCommand)
      lib /\
    Forall (PackageStep Fake.join templates (lit "/work/packages/app") appCommand libCommand)
      app /\
    Forall RootStep root /\
    (app ++ root <> [] ->
     exists w1 w2 steps lint build test,
       run Fake.env
         (preparePackage (lit "/pkg/src/cli.js") Fake.join Fake.jsonc_set (lit "@foo")
            (lit "/work/packages/lib") (lit "-w ./packages/lib")
            (lit "src/index.ts") (lit "test/index.test.ts") (Some (lit "MIT"))) w1
         = (Returned tt, lib, w2) /\
       lib =
         steps ++
         [EvConsole LInfo (lit "Running command: npm -w ./packages/lib run lint");
          EvExec (lit "npm -w ./packages/lib run lint") (Piped (ChildExit (Some 0%Z) :: lint));
          EvConsole LInfo (lit "Running command: npm -w ./packages/lib run build");
          EvExec (lit "npm -w ./packages/lib run build") (Piped (ChildExit (Some 0%Z) :: build));
          EvConsole LInfo (lit "Running command: npm -w ./packages/lib run test");
          EvExec (lit "npm -w ./packages/lib run test") (Piped (ChildExit (Some 0%Z) :: test))]).
Proof.
  intros flow w templates.
  exact (@library_before_application _ Fake.env w (lit "/work") (lit "/pkg/src/cli.js")
           Fake.join Fake.jsonc_set (lit "@foo") (Some (lit "MIT"))).
Defined.

(** * Further properties of the CLI *)

(** ** The resolved scope always carries the marker *)

Lemma trimStart_keeps_last (l : jsstring) (c : codeunit) :
  isWhiteSpace c = false -> exists l', trimStart (l ++ [c]) = l' ++ [c].
Proof.
  intros Hc. induction l as [|d l IH]; cbn [app trimStart].
  - rewrite Hc. exists []. reflexivity.
  - destruct (isWhiteSpace d); [exact IH|]. exists (d :: l). reflexivity.
Qed.

Lemma trimEnd_keeps_head (c : codeunit) (s : jsstring) :
  isWhiteSpace c = false -> exists s', trimEnd (c :: s) = c :: s'.
Proof.
  intros Hc. unfold trimEnd. cbn [rev].
  destruct (@trimStart_keeps_last (rev s) c Hc) as [l' ->].
  exists (rev l'). rewrite rev_app_distr. reflexivity.
Qed.

Lemma startsWith_at_head (s : jsstring) :
  startsWith s (lit "@") = true <-> exists s', s = 64%N :: s'.
Proof.
  rewrite startsWith_app. split; intros [s' ->]; exists s'; reflexivity.
Qed.

Lemma trim_marked (v : jsstring) : startsWith (trim (64%N :: v)) (lit "@") = true.
Proof.
  change (trim (64%N :: v)) with (trimEnd (64%N :: v)).
  destruct (@trimEnd_keeps_head 64%N v eq_refl) as [s' E].
  unfold jsstring, codeunit in *. rewrite E. reflexivity.
Qed.

(** X1. Whatever the flag and whatever is answered, a scope that [getScope]
    returns is empty or starts with the marker. *)
Theorem scope_empty_or_marked {W : Type} (env : Env W) (w w' : W)
    (argv : list jsstring) (isOptional : bool) (scope : jsstring) (tr : list Event) :
  run env (getScope argv isOptional) w = (Returned scope, tr, w') ->
  scope = [] \/ startsWith scope (lit "@") = true.
Proof.
  destruct (truthy (SCOPE_ARG argv)) eqn:Hflag.
  - rewrite (run_getScope_flag env w argv isOptional Hflag).
    destruct (startsWith (SCOPE_ARG argv) (lit "@")) eqn:Hat;
      intros H; injection H as <- _ _; right; [exact Hat | reflexivity].
  - apply truthy_false in Hflag.
    destruct (env _ (PromptText (scopeQuestion isOptional)) w) as [answer w1] eqn:Henv.
    rewrite (run_getScope_prompt env w argv isOptional Hflag Henv). intros H.
    injection H as H _ _. assert (Hmissing :
      (if isOptional then Returned [] else Thrown (JsError (lit "Scope is required")))
      = Returned scope -> scope = []).
    { destruct isOptional; intros E; [injection E as <-; reflexivity | discriminate]. }
    destruct answer as [value|]; [|left; exact (Hmissing H)].
    destruct (negb (truthy value)); [left; exact (Hmissing H)|].
    destruct (eqb (trim value) []) eqn:Etrim; cbn [orb] in H.
    + injection H as <-. left. apply eqb_eq. exact Etrim.
    + destruct value as [|d v]; [injection H as <-; right; reflexivity|].
      destruct (N.eqb_spec d 64) as [->|Hd]; cbn [andb] in H; injection H as <-;
        [|right; reflexivity].
      right. apply trim_marked.
Qed.

Lemma scope_empty_or_marked_witness :
  lit "@foo" = [] \/ startsWith (lit "@foo") (lit "@") = true.
Proof.
  exact (@scope_empty_or_marked _ Fake.env
           (Fake.world [] [] [Some (lit "foo")] []) (Fake.world [] [] [] [])
           [] false (lit "@foo") [EvText (lit "Scope") (Some (lit "foo"))] eq_refl).
Defined.

(** ** Parsing the flags *)

Lemma split_no_sep (sep : codeunit) (s piece : jsstring) :
  In piece (split sep s) -> ~ In sep piece.
Proof.
  revert piece. induction s as [|c s IH]; intros piece; cbn [split].
  - intros [<-|[]] [].
  - destruct (N.eqb_spec c sep) as [->|Hc].
    + intros [<-|H]; [intros [] | apply IH; exact H].
    + destruct (split sep s) as [|p ps] eqn:E.
      * intros [<-|[]] [H|[]]. congruence.
      * intros [<-|H].
        -- intros [H|H]; [congruence|]. apply (IH p); [left; reflexivity | exact H].
        -- apply IH. right. exact H.
Qed.

Lemma split_whole (sep : codeunit) (s : jsstring) :
  forallb (fun c => negb (N.eqb c sep)) s = true -> split sep s = [s].
Proof.
  induction s as [|c s IH]; [reflexivity|].
  cbn [forallb split]. intros H. apply andb_prop in H. destruct H as [Hc Hs].
  destruct (N.eqb c sep); [discriminate|]. rewrite (IH Hs). reflexivity.
Qed.

Lemma find_first (f : jsstring -> bool) (pre post : list jsstring) (x : jsstring) :
  forallb (fun a => negb (f a)) pre = true -> f x = true ->
  find f (pre ++ x :: post) = Some x.
Proof.
  intros Hpre Hx. induction pre as [|a pre IH]; cbn [app find].
  - rewrite Hx. reflexivity.
  - cbn [forallb] in Hpre. apply andb_prop in Hpre. destruct Hpre as [Ha Hpre].
    destruct (f a); [discriminate|]. apply IH. exact Hpre.
Qed.

Lemma find_absent (f : jsstring -> bool) (l : list jsstring) :
  forallb (fun a => negb (f a)) l = true -> find f l = None.
Proof.
  induction l as [|a l IH]; [reflexivity|].
  cbn [forallb find]. intros H. apply andb_prop in H. destruct H as [Ha Hl].
  destruct (f a); [discriminate|]. apply IH. exact Hl.
Qed.

Lemma findIndex_first (f : jsstring -> bool) (pre post : list jsstring) (x : jsstring) :
  forallb (fun a => negb (f a)) pre = true -> f x = true ->
  findIndex f (pre ++ x :: post) = Some (List.length pre).
Proof.
  intros Hpre Hx. induction pre as [|a pre IH]; cbn [app findIndex List.length].
  - rewrite Hx. reflexivity.
  - cbn [forallb] in Hpre. apply andb_prop in Hpre. destruct Hpre as [Ha Hpre].
    destruct (f a); [discriminate|]. rewrite (IH Hpre). reflexivity.
Qed.

Lemma split_first (sep : codeunit) (a b : jsstring) :
  forallb (fun c => negb (N.eqb c sep)) a = true ->
  split sep (a ++ sep :: b) = a :: split sep b.
Proof.
  induction a as [|c a IH]; cbn [forallb app split].
  - intros _. rewrite N.eqb_refl. reflexivity.
  - intros H. apply andb_prop in H. destruct H as [Hc Ha].
    destruct (N.eqb c sep); [discriminate|]. rewrite (IH Ha). reflexivity.
Qed.

(** X2. The scope taken from the command line never contains an equals sign,
    and of the first argument of the form [--scope=a=b] only the text
    between the first and the second equals sign is kept: [a]. *)
Theorem scope_flag_has_no_equals (argv pre post : list jsstring) (a b : jsstring) :
  forallb (fun arg => negb (startsWith arg (lit "--scope="))) pre = true ->
  forallb (fun c => negb (N.eqb c 61%N)) a = true ->
  ~ In 61%N (SCOPE_ARG argv) /\
  SCOPE_ARG (pre ++ (lit "--scope=" ++ a ++ 61%N :: b) :: post) = a.
Proof.
  intros Hpre Ha. split.
  - unfold SCOPE_ARG.
    destruct (find _ argv) as [arg|]; [|intros []].
    destruct (nth_error (split 61%N arg) 1) as [s|] eqn:E; [|intros []].
    apply nth_error_In in E. exact (split_no_sep _ _ _ E).
  - unfold SCOPE_ARG.
    erewrite find_first; [|exact Hpre|reflexivity].
    assert (E : split 61%N (lit "--scope=" ++ a ++ 61%N :: b)
                = lit "--scope" :: a :: split 61%N b)
      by exact (f_equal (cons (lit "--scope")) (split_first 61%N a b Ha)).
    unfold jsstring, codeunit in *. rewrite E. reflexivity.
Qed.

Lemma scope_flag_has_no_equals_witness :
  ~ In 61%N (SCOPE_ARG [lit "node"; lit "cli.js"; lit "--scope=@a=b=c"]) /\
  SCOPE_ARG [lit "node"; lit "cli.js"; lit "--scope=@a=b=c"; lit "--scope=@d"] = lit "@a".
Proof.
  exact (@scope_flag_has_no_equals [lit "node"; lit "cli.js"; lit "--scope=@a=b=c"]
           [lit "node"; lit "cli.js"] [lit "--scope=@d"] (lit "@a") (lit "b=c")
           eq_refl eq_refl).
Defined.

(** X3. The first argument of the form [--scope=v] decides the scope flag, and
    when [v] has no equals sign the flag is [v] itself. *)
Theorem scope_flag_value (pre post : list jsstring) (v : jsstring) :
  forallb (fun arg => negb (startsWith arg (lit "--scope="))) pre = true ->
  forallb (fun c => negb (N.eqb c 61%N)) v = true ->
  SCOPE_ARG (pre ++ (lit "--scope=" ++ v) :: post) = v.
Proof.
  intros Hpre Hv. unfold SCOPE_ARG.
  erewrite find_first; [|exact Hpre|reflexivity].
  change (split 61%N (lit "--scope=" ++ v)) with (lit "--scope" :: split 61%N v).
  rewrite (split_whole 61%N v Hv). reflexivity.
Qed.

Lemma scope_flag_value_witness :
  SCOPE_ARG [lit "node"; lit "cli.js"; lit "-y"; lit "--scope=@foo"; lit "--scope=@bar"]
  = lit "@foo".
Proof.
  exact (@scope_flag_value [lit "node"; lit "cli.js"; lit "-y"] [lit "--scope=@bar"]
           (lit "@foo") eq_refl eq_refl).
Defined.

(** X4. A non-empty [--workspace=v] (the first one, [v] without equals sign)
    decides the workspace flag, whatever [-w] says elsewhere. *)
Theorem workspace_long_flag_wins (pre post : list jsstring) (v : jsstring) :
  forallb (fun arg => negb (startsWith arg (lit "--workspace="))) pre = true ->
  forallb (fun c => negb (N.eqb c 61%N)) v = true ->
  v <> [] ->
  CREATE_WORKSPACE_ARG (pre ++ (lit "--workspace=" ++ v) :: post) = v.
Proof.
  intros Hpre Hv Hne. unfold CREATE_WORKSPACE_ARG.
  erewrite find_first; [|exact Hpre|reflexivity].
  change (split 61%N (lit "--workspace=" ++ v)) with (lit "--workspace" :: split 61%N v).
  rewrite (split_whole 61%N v Hv). cbn [nth_error].
  unfold orElse at 1. cbn [BooleanS]. destruct v; [contradiction | reflexivity].
Qed.

Lemma workspace_long_flag_wins_witness :
  CREATE_WORKSPACE_ARG
    [lit "node"; lit "cli.js"; lit "-w"; lit "packages/a"; lit "--workspace=packages/b"]
  = lit "packages/b".
Proof.
  refine (@workspace_long_flag_wins [lit "node"; lit "cli.js"; lit "-w"; lit "packages/a"] []
            (lit "packages/b") eq_refl eq_refl _).
  discriminate.
Defined.

(** X5. Without a [--workspace=] argument, the workspace flag is whatever
    follows the first [-w], be it a path or another flag; a trailing [-w]
    leaves it empty. *)
Theorem workspace_flag_after_w (pre rest : list jsstring) :
  forallb (fun arg => negb (startsWith arg (lit "--workspace=")))
          (pre ++ lit "-w" :: rest) = true ->
  forallb (fun arg => negb (eqb arg (lit "-w"))) pre = true ->
  CREATE_WORKSPACE_ARG (pre ++ lit "-w" :: rest) = hd [] rest.
Proof.
  intros Hlong Hpre. unfold CREATE_WORKSPACE_ARG, workspaceFlagIdx.
  rewrite (find_absent _ _ Hlong).
  erewrite findIndex_first; [|exact Hpre|reflexivity].
  unfold orElse at 1. cbn [BooleanS].
  replace (nth_error (pre ++ lit "-w" :: rest) (List.length pre + 1)) with (nth_error rest 0).
  - destruct rest as [|v rest]; [reflexivity|].
    cbn [nth_error hd]. unfold orElse. cbn [BooleanS]. destruct v; reflexivity.
  - rewrite nth_error_app2 by apply Nat.le_add_r.
    replace (List.length pre + 1 - List.length pre)%nat with 1%nat
      by (rewrite Nat.add_comm, Nat.add_sub; reflexivity).
    reflexivity.
Qed.

Lemma workspace_flag_after_w_witness :
  CREATE_WORKSPACE_ARG [lit "node"; lit "cli.js"; lit "-w"; lit "--yes"] = lit "--yes".
Proof.
  exact (@workspace_flag_after_w [lit "node"; lit "cli.js"] [lit "--yes"] eq_refl eq_refl).
Defined.

(** ** The manifest *)

(** X6. When package.json is there, its module type is set and nothing else;
    but the [catch] also covers that command, so when its promise rejects -
    the child exits with another code or emits an error, the child has no
    streams, or it could not be started - the manifest is initialised as if
    it were missing. *)
Theorem manifest_patch_failure_runs_init {W : Type} (env : Env W) (w w1 w4 : W)
    (argv : list jsstring) (scope : jsstring) (child : Spawned) :
  let pkgSet := lit "npm " ++ [] ++ lit " pkg set type=module" in
  let found := lit "package.json found, continuing..." in
  let w2 := snd (env _ (Console LInfo found) w1) in
  let w3 := snd (env _ (Console LInfo (lit "Running command: " ++ pkgSet)) w2) in
  let yesArg := if YES_ARG argv then lit "-y" else [] in
  let init :=
    if eqb scope [] then lit "npm init " ++ yesArg
    else lit "npm init --scope=" ++ scope ++ lit " " ++ yesArg in
  let seen :=
    [EvAccess (lit "./package.json") (Ok tt); EvConsole LInfo found;
     EvConsole LInfo (lit "Running command: " ++ pkgSet); EvExec pkgSet child] in
  env _ (Access (lit "./package.json")) w = (Ok tt, w1) ->
  env _ (Exec pkgSet) w3 = (child, w4) ->
  child <> Piped [] ->
  match child with
  | Piped (ChildExit (Some 0%Z) :: _) =>
      run env (checkPackageJson argv scope) w = (Returned tt, seen, w4)
  | _ =>
      exists events tail,
        trace env (checkPackageJson argv scope) w =
        seen ++ [EvConsole LInfo (lit "Running command: " ++ init); EvExec init events] ++ tail
  end.
Proof.
  intros pkgSet found w2 w3 yesArg init seen Haccess Hexec Hsettles.
  assert (Htry :
    run env (fs.access (lit "./package.json") ;; console LInfo found ;; patchPackageJson []) w
    = (match child with
       | SpawnThrew error => Thrown error
       | NoStdio => Thrown pipeTypeError
       | Piped [] => Hung
       | Piped (ChildExit (Some 0%Z) :: _) => Returned tt
       | Piped (ChildExit code :: _) => Thrown (exitError code)
       | Piped (ChildError error :: _) => Thrown error
       end, seen, w4)).
  { rewrite run_bind, run_access, Haccess. rewrite run_bind, run_console.
    unfold patchPackageJson. fold pkgSet. fold w2. rewrite run_runCommand.
    cbv zeta. fold w3. rewrite Hexec. reflexivity. }
  assert (Hinit : forall w5,
    exists events tail,
      snd (fst (run env
        ((if eqb scope [] then runCommand (lit "npm init " ++ yesArg)
          else runCommand (lit "npm init --scope=" ++ scope ++ lit " " ++ yesArg)) ;;
         patchPackageJson []) w5))
      = [EvConsole LInfo (lit "Running command: " ++ init); EvExec init events] ++ tail).
  { intros w5. rewrite run_bind.
    assert (Hrun : run env (if eqb scope [] then runCommand (lit "npm init " ++ yesArg)
                            else runCommand (lit "npm init --scope=" ++ scope ++ lit " " ++ yesArg)) w5
                   = run env (runCommand init) w5)
      by (unfold init; destruct (eqb scope []); reflexivity).
    rewrite Hrun, run_runCommand. cbv zeta.
    destruct (env _ (Exec init) _) as [events w6]. exists events.
    destruct events as [error| |[|[e|[[|p|p]|]] more]]; cbn [fst snd];
      try (exists []; reflexivity).
    destruct (run env (patchPackageJson []) w6) as [[o tail] w7].
    exists tail. reflexivity. }
  unfold checkPackageJson, trace. fold found yesArg.
  rewrite run_try_catch, Htry.
  destruct child as [error| |[|[error|[[|p|p]|]] rest]]; try reflexivity;
    try (contradiction Hsettles; reflexivity);
    destruct (Hinit w4) as (events & tail & Htail);
    exists events, tail;
    destruct (run env _ w4) as [[o t] w8]; cbn [fst snd] in *; rewrite Htail; reflexivity.
Qed.

Lemma manifest_patch_failure_runs_init_witness :
  exists events tail,
    trace Fake.env (checkPackageJson [lit "node"; lit "cli.js"; lit "-y"] (lit "@foo"))
      {| Fake.entries := [lit "package.json"]; Fake.confirms := []; Fake.texts := [];
         Fake.document := []; Fake.children := [Piped [ChildExit (Some 1%Z)]] |} =
    [EvAccess (lit "./package.json") (Ok tt);
     EvConsole LInfo (lit "package.json found, continuing...");
     EvConsole LInfo (lit "Running command: " ++ lit "npm " ++ [] ++ lit " pkg set type=module");
     EvExec (lit "npm " ++ [] ++ lit " pkg set type=module") (Piped [ChildExit (Some 1%Z)])] ++
    [EvConsole LInfo (lit "Running command: " ++ lit "npm init --scope=" ++ lit "@foo" ++ lit " " ++ lit "-y");
     EvExec (lit "npm init --scope=" ++ lit "@foo" ++ lit " " ++ lit "-y") events] ++ tail.
Proof.
  refine (@manifest_patch_failure_runs_init _ Fake.env
            {| Fake.entries := [lit "package.json"]; Fake.confirms := []; Fake.texts := [];
               Fake.document := []; Fake.children := [Piped [ChildExit (Some 1%Z)]] |}
            {| Fake.entries := [lit "package.json"]; Fake.confirms := []; Fake.texts := [];
               Fake.document := []; Fake.children := [Piped [ChildExit (Some 1%Z)]] |}
            (Fake.world [lit "package.json"] [] [] [])
            [lit "node"; lit "cli.js"; lit "-y"] (lit "@foo")
            (Piped [ChildExit (Some 1%Z)]) eq_refl eq_refl _).
  discriminate.
Defined.

(** X7. Reading the license never fails the run: a read or parse error is
    reported on the console and no license is returned. *)
Theorem license_read_never_throws {W : Type} (env : Env W) (w : W)
    (join : list jsstring -> jsstring)
    (license_of : jsstring -> result (option jsstring)) (packageJsonPath : jsstring) :
  let file := join [packageJsonPath] in
  let complaint :=
    lit "There was an error copying license from the root package.json, please check child packages manually if needed" in
  run env (getPackageJsonLicense join license_of packageJsonPath) w =
  let (r, w1) := env _ (ReadFile file) w in
  let failure :=
    (Returned None, [EvReadFile file r; EvConsole LError complaint],
     snd (env _ (Console LError complaint) w1)) in
  match r with
  | Ok rootPackageJson =>
      match license_of rootPackageJson with
      | Ok license => (Returned license, [EvReadFile file r], w1)
      | Err _ => failure
      end
  | Err _ => failure
  end.
Proof.
  intros file complaint. unfold getPackageJsonLicense. fold file complaint.
  rewrite run_try_catch, run_bind. unfold fs.readFile. cbn [bind trigger run].
  destruct (env _ (ReadFile file) w) as [[doc|e] w1]; cbn [settled run].
  - destruct (license_of doc) as [license|e]; cbn [settled run app]; [reflexivity|].
    rewrite run_bind, run_console. reflexivity.
  - rewrite run_bind, run_console. reflexivity.
Qed.

(** ** Failing commands stop the sequence *)

(** X8. When the promise of the package's lint command does not resolve,
    the provisioning stops there and build and test are not run: it throws
    the exception of a command that could not be started, the [TypeError] of
    a child without streams, the error the child emitted or "Process exited
    with code <code>", and it hangs when the child emits nothing. *)
Theorem lint_failure_stops_build_and_test {W : Type} (env : Env W) (w w1 : W)
    (workspace : jsstring) (child : Spawned) :
  let lint := lit "npm " ++ workspace ++ lit " run lint" in
  let w0 := snd (env _ (Console LInfo (lit "Running command: " ++ lint)) w) in
  env _ (Exec lint) w0 = (child, w1) ->
  (forall rest, child <> Piped (ChildExit (Some 0%Z) :: rest)) ->
  run env (lintBuildTest workspace) w =
  (match child with
   | SpawnThrew error => Thrown error
   | NoStdio =>
       Thrown (JsTypeError (lit "Cannot read properties of undefined (reading 'pipe')"))
   | Piped [] => Hung
   | Piped (ChildError error :: _) => Thrown error
   | Piped (ChildExit code :: _) =>
       Thrown (JsError (lit "Process exited with code " ++ showCode code))
   end,
   [EvConsole LInfo (lit "Running command: " ++ lint); EvExec lint child], w1).
Proof.
  intros lint w0 Hexec Hfails. unfold lintBuildTest. fold lint.
  rewrite run_bind, run_runCommand. cbv zeta. fold w0. rewrite Hexec.
  destruct child as [error| |[|[error|[[|p|p]|]] rest]]; try reflexivity.
  contradiction (Hfails rest). reflexivity.
Qed.

Lemma lint_failure_stops_build_and_test_witness :
  run Fake.env (lintBuildTest (lit "-w ./packages/lib"))
    {| Fake.entries := []; Fake.confirms := []; Fake.texts := []; Fake.document := [];
       Fake.children := [NoStdio] |} =
  (Thrown (JsTypeError (lit "Cannot read properties of undefined (reading 'pipe')")),
   [EvConsole LInfo (lit "Running command: " ++ lit "npm " ++ lit "-w ./packages/lib" ++ lit " run lint");
    EvExec (lit "npm " ++ lit "-w ./packages/lib" ++ lit " run lint") NoStdio],
   Fake.world [] [] [] []).
Proof.
  refine (@lint_failure_stops_build_and_test _ Fake.env
            {| Fake.entries := []; Fake.confirms := []; Fake.texts := []; Fake.document := [];
               Fake.children := [NoStdio] |}
            (Fake.world [] [] [] [])
            (lit "-w ./packages/lib") NoStdio eq_refl _).
  discriminate.
Defined.

(** ** Editing the compiler configuration *)

Lemma applyPatches_app (jsonc_set : jsstring -> list jsstring -> Json -> result jsstring)
    (tsconfig : jsstring) (ps qs : list Patch) :
  applyPatches jsonc_set tsconfig (ps ++ qs) =
  match applyPatches jsonc_set tsconfig ps with
  | Ok edited => applyPatches jsonc_set edited qs
  | Err e => Err e
  end.
Proof.
  revert tsconfig. induction ps as [|p ps IH]; intros tsconfig; cbn [app applyPatches].
  - reflexivity.
  - destruct (jsonc_set tsconfig (path p) (value p)); [apply IH | reflexivity].
Qed.

(** X9. What a single package's tsconfig.json gets is what a workspace member
    gets in two steps: the build document's edits, then the [paths] edit of
    the extending document applied to the result. *)
Theorem single_patch_is_build_then_paths
    (jsonc_set : jsstring -> list jsstring -> Json -> result jsstring)
    (original scope : jsstring) :
  patchTsconfigJson jsonc_set original (Some scope) false =
  match patchTsconfigJson jsonc_set original None false with
  | Ok build => patchTsconfigJson jsonc_set build (Some scope) true
  | Err e => Err e
  end.
Proof.
  unfold patchTsconfigJson, patches. cbn [BooleanS]. rewrite app_nil_r.
  apply applyPatches_app.
Qed.

(** X10. When an edit throws, the run throws that error right after the read:
    the document is not written, patched or not. *)
Theorem edit_error_leaves_document {W : Type} (env : Env W) (w w1 : W)
    (join : list jsstring -> jsstring)
    (jsonc_set : jsstring -> list jsstring -> Json -> result jsstring)
    (scope directory workspace original : jsstring) (e : Error) :
  let file :=
    join [directory; if truthy workspace then lit "tsconfig.build.json" else lit "tsconfig.json"] in
  env _ (ReadFile file) w = (Ok original, w1) ->
  patchTsconfigJson jsonc_set original (if truthy workspace then None else Some scope) false
    = Err e ->
  run env (patchTsconfigs join jsonc_set scope directory workspace) w =
  (Thrown e, [EvReadFile file (Ok original)], w1).
Proof.
  intros file Hread Hpatch. unfold patchTsconfigs, fs.readFile. subst file.
  destruct (truthy workspace); cbn [bind trigger run]; rewrite Hread;
    cbn [settled bind run]; rewrite Hpatch; reflexivity.
Qed.

Lemma edit_error_leaves_document_witness :
  run Fake.env
    (patchTsconfigs Fake.join (fun _ _ _ => Err (JsError (lit "Can not add index")))
       (lit "@foo") (lit "/work") [])
    (Fake.world [] [] [] (lit "[]")) =
  (Thrown (JsError (lit "Can not add index")),
   [EvReadFile (Fake.join [lit "/work"; lit "tsconfig.json"]) (Ok (lit "[]"))],
   Fake.world [] [] [] (lit "[]")).
Proof.
  exact (@edit_error_leaves_document _ Fake.env (Fake.world [] [] [] (lit "[]"))
           (Fake.world [] [] [] (lit "[]")) Fake.join
           (fun _ _ _ => Err (JsError (lit "Can not add index")))
           (lit "@foo") (lit "/work") [] (lit "[]") (JsError (lit "Can not add index"))
           eq_refl eq_refl).
Defined.

(** ** Editing the lint configuration *)

(** X11. When the commented line is absent, the configuration is still written,
    with exactly the text that was read. *)
Theorem eslint_absent_written_back {W : Type} (env : Env W) (w w1 : W)
    (cwd : jsstring) (join : list jsstring -> jsstring) (scope eslintConfig : jsstring) :
  let file := join [cwd; lit ".eslintrc.cjs"] in
  env _ (ReadFile file) w = (Ok eslintConfig, w1) ->
  (forall before after, eslintConfig <> before ++ importInternalPattern ++ after) ->
  run env (patchEslintImportInternal cwd join scope) w =
  let (written, w2) := env _ (WriteFile file eslintConfig) w1 in
  (match written with Ok a => Returned a | Err e => Thrown e end,
   [EvReadFile file (Ok eslintConfig); EvWriteFile file eslintConfig written], w2).
Proof.
  intros file Hread Habsent.
  rewrite (run_patchEslintImportInternal env w cwd join scope Hread).
  fold file. rewrite (eslint_edit_absent scope Habsent). reflexivity.
Qed.

Lemma eslint_absent_written_back_witness :
  run Fake.env (patchEslintImportInternal (lit "/work") Fake.join (lit "@foo"))
    (Fake.world [] [] [] (lit "module.exports = {};")) =
  (Returned tt,
   [EvReadFile (Fake.join [lit "/work"; lit ".eslintrc.cjs"]) (Ok (lit "module.exports = {};"));
    EvWriteFile (Fake.join [lit "/work"; lit ".eslintrc.cjs"]) (lit "module.exports = {};")
      (Ok tt)],
   Fake.world [] [] [] (lit "module.exports = {};")).
Proof.
  refine (@eslint_absent_written_back _ Fake.env
            (Fake.world [] [] [] (lit "module.exports = {};"))
            (Fake.world [] [] [] (lit "module.exports = {};"))
            (lit "/work") Fake.join (lit "@foo") (lit "module.exports = {};") eq_refl _).
  apply splitAtFirst_None. reflexivity.
Defined.

Lemma splitAtFirst_first (pat s b a : jsstring) :
  splitAtFirst pat s = Some (b, a) ->
  forall b' a', s = b' ++ pat ++ a' -> List.length b <= List.length b'.
Proof.
  revert b. induction s as [|c s IH]; intros b; rewrite splitAtFirst_unfold;
    destruct (startsWith _ pat) eqn:Hp; try discriminate.
  - intros H. injection H as <- _. intros. apply Nat.le_0_l.
  - intros H. injection H as <- _. intros. apply Nat.le_0_l.
  - destruct (splitAtFirst pat s) as [[b0 a0]|]; [|discriminate].
    intros H. injection H as <- <-. intros b' a' Hs.
    destruct b' as [|d b'].
    + assert (startsWith (c :: s) pat = true) by (apply startsWith_app; exists a'; exact Hs).
      congruence.
    + injection Hs as _ Hs. cbn [List.length]. apply le_n_S. exact (IH b0 eq_refl b' a' Hs).
Qed.

(** X12. With a scope free of dollar signs, what is written is the text read
    with its first commented line - and only that one - replaced by the rule
    for that scope. *)
Theorem eslint_plain_scope_written {W : Type} (env : Env W) (w w1 : W)
    (cwd : jsstring) (join : list jsstring -> jsstring)
    (scope eslintConfig before after : jsstring) :
  let file := join [cwd; lit ".eslintrc.cjs"] in
  let edited := before ++ importInternalRule scope ++ after in
  env _ (ReadFile file) w = (Ok eslintConfig, w1) ->
  forallb (fun c => negb (N.eqb c 36)) scope = true ->
  splitAtFirst importInternalPattern eslintConfig = Some (before, after) ->
  eslintConfig = before ++ importInternalPattern ++ after /\
  (forall b a, eslintConfig = b ++ importInternalPattern ++ a ->
               List.length before <= List.length b) /\
  run env (patchEslintImportInternal cwd join scope) w =
  let (written, w2) := env _ (WriteFile file edited) w1 in
  (match written with Ok a => Returned a | Err e => Thrown e end,
   [EvReadFile file (Ok eslintConfig); EvWriteFile file edited written], w2).
Proof.
  intros file edited Hread Hplain Hsplit.
  destruct (eslint_edit_plain_scope scope eslintConfig Hplain Hsplit) as [Hwhole Hedit].
  split; [exact Hwhole|]. split; [exact (@splitAtFirst_first _ _ _ _ Hsplit)|].
  rewrite (run_patchEslintImportInternal env w cwd join scope Hread).
  fold file. rewrite Hedit. reflexivity.
Qed.

Lemma eslint_plain_scope_written_witness :
  let eslintConfig := lit "a " ++ importInternalPattern ++ lit " b " ++ importInternalPattern in
  run Fake.env (patchEslintImportInternal (lit "/work") Fake.join (lit "@foo"))
    (Fake.world [] [] [] eslintConfig) =
  (Returned tt,
   [EvReadFile (Fake.join [lit "/work"; lit ".eslintrc.cjs"]) (Ok eslintConfig);
    EvWriteFile (Fake.join [lit "/work"; lit ".eslintrc.cjs"])
      (lit "a " ++ importInternalRule (lit "@foo") ++ lit " b " ++ importInternalPattern)
      (Ok tt)],
   Fake.world [] [] [] eslintConfig).
Proof.
  intros eslintConfig.
  exact (proj2 (proj2 (@eslint_plain_scope_written _ Fake.env
           (Fake.world [] [] [] eslintConfig) (Fake.world [] [] [] eslintConfig)
           (lit "/work") Fake.join (lit "@foo") eslintConfig (lit "a ")
           (lit " b " ++ importInternalPattern) eq_refl eq_refl eq_refl))).
Defined.

(** ** Copying template files *)

Lemma run_attempt {W A : Type} (env : Env W) (p : Prog A) (w : W) :
  run env (attempt p) w =
  match run env p w with
  | (Returned a, t, w1) => (Returned (Ok a), t, w1)
  | (Thrown e, t, w1) => (Returned (Err e), t, w1)
  | (Exited c, t, w1) => (Exited c, t, w1)
  | (Hung, t, w1) => (Hung, t, w1)
  end.
Proof.
  unfold attempt. rewrite run_try_catch, run_bind.
  destruct (run env p w) as [[[a|e|c|] t] w1]; cbn [run]; rewrite ?app_nil_r; reflexivity.
Qed.

Lemma allOk_cons {A : Type} (r : result A) (rs : list (result A)) (l : list A) :
  allOk (r :: rs) = Ok l -> exists a l', r = Ok a /\ allOk rs = Ok l' /\ l = a :: l'.
Proof.
  cbn [allOk]. destruct r as [a|e]; [|discriminate].
  destruct (allOk rs) as [l'|e]; [|discriminate].
  intros H. injection H as <-. exists a, l'. auto.
Qed.

Lemma run_gather_cons {W A : Type} (env : Env W) (p : Prog A) (ps : list (Prog A))
    (w w' : W) (rs : list (result A)) (tr : list Event) :
  run env (gather (p :: ps)) w = (Returned rs, tr, w') ->
  exists r rs' t1 w1 t2,
    run env (attempt p) w = (Returned r, t1, w1) /\
    run env (gather ps) w1 = (Returned rs', t2, w') /\
    rs = r :: rs' /\ tr = t1 ++ t2.
Proof.
  cbn [gather]. intros H.
  apply run_bind_Returned in H. destruct H as (r & t1 & w1 & t & Hp & H & ->).
  apply run_bind_Returned in H. destruct H as (rs' & t2 & w2 & t3 & Hps & H & ->).
  cbn [run] in H. injection H as <- <- <-.
  exists r, rs', t1, w1, t2. rewrite app_nil_r. auto.
Qed.

Lemma run_gather_stats {W : Type} (env : Env W) (join : list jsstring -> jsstring)
    (dir : jsstring) (entries : list jsstring) (w w' : W)
    (rs : list (result (option jsstring))) (files : list (option jsstring))
    (tr : list Event) :
  run env
    (gather (map (fun file =>
                    stats <- fs.stat (join [dir; file]) ;;
                    Ret (if stats then Some file else None)) entries)) w
    = (Returned rs, tr, w') ->
  allOk rs = Ok files ->
  exists kinds,
    List.length kinds = List.length entries /\
    tr = statEvents join dir entries kinds /\
    defined files = regularFiles entries kinds.
Proof.
  revert w rs files tr. induction entries as [|file entries IH]; intros w rs files tr H Hok.
  - cbn [map gather run] in H. injection H as <- <- _. cbn [allOk] in Hok.
    injection Hok as <-. exists []. repeat split.
  - cbn [map] in H. apply run_gather_cons in H.
    destruct H as (r & rs' & t1 & w1 & t2 & Hp & Hps & -> & ->).
    apply allOk_cons in Hok. destruct Hok as (a & l' & -> & Hok & ->).
    destruct (IH w1 rs' l' t2 Hps Hok) as (kinds & Hlen & -> & Hdef).
    rewrite run_attempt, run_bind in Hp. unfold fs.stat in Hp.
    cbn [bind trigger run] in Hp.
    destruct (env _ (Stat (join [dir; file])) w) as [[b|e] w2];
      cbn [settled run app] in Hp; [|discriminate].
    injection Hp as <- <- _. exists (b :: kinds). split; [cbn; congruence|].
    split; [reflexivity|].
    unfold regularFiles. cbn [combine filter snd]. destruct b; cbn [defined map fst];
      fold (regularFiles entries kinds); congruence.
Qed.

Lemma run_gather_copies {W : Type} (env : Env W) (join : list jsstring -> jsstring)
    (fromDir toDir : jsstring) (files : list jsstring) (w w' : W)
    (rs : list (result unit)) (done : list unit) (tr : list Event) :
  run env
    (gather (map (fun file => fs.copyFile (join [fromDir; file]) (join [toDir; undot file]))
                 files)) w
    = (Returned rs, tr, w') ->
  allOk rs = Ok done ->
  tr = copyEvents join fromDir toDir files.
Proof.
  revert w rs done tr. induction files as [|file files IH]; intros w rs done tr H Hok.
  - cbn [map gather run] in H. injection H as _ <- _. reflexivity.
  - cbn [map] in H. apply run_gather_cons in H.
    destruct H as (r & rs' & t1 & w1 & t2 & Hp & Hps & -> & ->).
    apply allOk_cons in Hok. destruct Hok as (a & l' & -> & Hok & ->).
    rewrite (IH w1 rs' l' t2 Hps Hok).
    rewrite run_attempt in Hp. unfold fs.copyFile in Hp. cbn [bind trigger run] in Hp.
    destruct (env _ (CopyFile _ _) w) as [[[]|e] w2]; cbn [settled run] in Hp; [|discriminate].
    injection Hp as _ <- _. reflexivity.
Qed.

(** X13. A copy that returns has listed the source directory, looked at every
    entry, and then copied exactly the entries that are regular files -
    directories are skipped - each under its own name, a leading "dot"
    turned into ".". *)
Theorem copyFiles_copies_regular_files {W : Type} (env : Env W) (w w' : W)
    (join : list jsstring -> jsstring) (fromDir toDir : jsstring)
    (done : list unit) (tr : list Event) :
  run env (copyFiles join fromDir toDir) w = (Returned done, tr, w') ->
  exists entries kinds,
    List.length kinds = List.length entries /\
    tr =
      [EvConsole LInfo (lit "Copying files from " ++ fromDir ++ lit " to " ++ toDir);
       EvReaddir fromDir (Ok entries)] ++
      statEvents join fromDir entries kinds ++
      copyEvents join fromDir toDir (regularFiles entries kinds).
Proof.
  unfold copyFiles, allFiles. intros H.
  apply run_bind_Returned in H. destruct H as ([] & t1 & w1 & t & Hlog & H & ->).
  rewrite run_console in Hlog. injection Hlog as <- _.
  apply run_bind_Returned in H. destruct H as (files & t2 & w2 & t3 & Hall & Hcopy & ->).
  apply run_bind_Returned in Hall. destruct Hall as (entries & t4 & w4 & t5 & Hdir & Hall & ->).
  rewrite run_readdir in Hdir.
  destruct (env _ (Readdir fromDir) w1) as [[listing|e] w5]; [|discriminate].
  injection Hdir as -> <- _.
  apply run_bind_Returned in Hall. destruct Hall as (found & t6 & w6 & t7 & Hstat & Hret & ->).
  cbn [run] in Hret. injection Hret as <- <- _.
  unfold promiseAll in Hstat, Hcopy.
  apply run_bind_Returned in Hstat. destruct Hstat as (rs & t8 & w8 & t9 & Hstat & Hok & ->).
  apply run_allOk_Returned in Hok. destruct Hok as (Hok & -> & _).
  destruct (run_gather_stats env join fromDir entries w4 Hstat Hok) as (kinds & Hlen & -> & Hdef).
  rewrite Hdef in Hcopy.
  apply run_bind_Returned in Hcopy. destruct Hcopy as (cs & t10 & w10 & t11 & Hcopy & Hok2 & ->).
  apply run_allOk_Returned in Hok2. destruct Hok2 as (Hok2 & -> & _).
  rewrite (run_gather_copies env join fromDir toDir _ w2 Hcopy Hok2).
  exists entries, kinds. split; [exact Hlen|].
  rewrite !app_nil_r. reflexivity.
Qed.

Lemma copyFiles_copies_regular_files_witness :
  let w := Fake.world [lit "dotgitignore"; lit "tsconfig.json"] [] [] [] in
  let tr := trace Fake.env (copyFiles Fake.join (lit "/tpl") (lit "/work")) w in
  exists entries kinds,
    List.length kinds = List.length entries /\
    tr =
      [EvConsole LInfo (lit "Copying files from " ++ lit "/tpl" ++ lit " to " ++ lit "/work");
       EvReaddir (lit "/tpl") (Ok entries)] ++
      statEvents Fake.join (lit "/tpl") entries kinds ++
      copyEvents Fake.join (lit "/tpl") (lit "/work") (regularFiles entries kinds).
Proof.
  intros w tr.
  refine (@copyFiles_copies_regular_files _ Fake.env w w Fake.join (lit "/tpl") (lit "/work")
            [tt; tt] tr _).
  vm_compute. reflexivity.
Defined.

(** ** Questions come before changes *)

Lemma Phased_bind {A B : Type} (P Q : Event -> Prop) (p : Prog A) (f : A -> Prog B) :
  Always P p -> (forall a, Phased P Q (f a)) -> Phased P Q (bind p f).
Proof.
  intros Hp Hf W env w. unfold trace. rewrite run_bind.
  specialize (Hp W env w). unfold trace in Hp.
  destruct (run env p w) as [[o t] w1]. cbn [fst snd] in Hp.
  destruct o as [a|e|c|]; cbn [fst snd];
    try (exists t, []; rewrite app_nil_r; repeat split; [exact Hp | constructor]).
  destruct (Hf a W env w1) as (t1 & t2 & Htr & H1 & H2). unfold trace in Htr.
  destruct (run env (f a) w1) as [[o2 t'] w2]. cbn [fst snd] in *. subst t'.
  exists (t ++ t1), t2. rewrite app_assoc. repeat split; [|exact H2].
  apply Forall_app. split; assumption.
Qed.

Lemma Phased_late {A : Type} (P Q : Event -> Prop) (p : Prog A) :
  Always Q p -> Phased P Q p.
Proof.
  intros Hp W env w. exists [], (trace env p w). repeat split; [constructor | apply Hp].
Qed.

Lemma Phased_split {W A : Type} (P Q : Event -> Prop) (p : Prog A) (env : Env W) (w : W)
    (x : Event) (before after : list Event) :
  Phased P Q p -> ~ Q x -> trace env p w = before ++ x :: after -> Forall P before.
Proof.
  intros Hp Hx Htr. destruct (Hp W env w) as (t1 & t2 & E & H1 & H2).
  rewrite Htr in E. clear Htr. revert before E.
  induction H1 as [|y t1 Hy H1 IH]; intros before E.
  - cbn [app] in E. rewrite <- E in H2. apply Forall_app in H2. destruct H2 as [_ H2].
    inversion H2. contradiction.
  - destruct before as [|z before]; [constructor|].
    cbn [app] in E. injection E as -> E. constructor; [exact Hy | apply IH; exact E].
Qed.

Ltac always_any :=
  repeat first
    [ apply Always_Ret | apply Always_Throw | apply Always_Exit | apply Always_Hang
    | apply Always_settled | apply Always_awaitChild
    | apply Always_trigger; intros ?; reflexivity
    | apply Always_promiseAll;
      [intros ? ?; reflexivity|apply Forall_map, Forall_forall; intros ? _]
    | apply Always_bind; [|intros ?]
    | apply Always_try_catch; [|intros ?]
    | match goal with
      | |- Always _ (match ?x with _ => _ end) => destruct x
      end
    | progress cbv zeta ].

(** Nothing that decides the setup changes the disk or runs a command. *)
Lemma Always_decisions_read_only (argv : list jsstring) (cwd : jsstring) :
  Always (fun ev => mutates ev = false) (checkEmptyDirectory argv cwd) /\
  (forall isEmpty, Always (fun ev => mutates ev = false) (checkCreateWorkspace argv isEmpty)) /\
  (forall createWorkspace,
     Always (fun ev => mutates ev = false) (resolveMonorepo argv createWorkspace)) /\
  (forall isMonorepo isCreatingWorkspace,
     Always (fun ev => mutates ev = false) (resolveScope argv isMonorepo isCreatingWorkspace)).
Proof.
  repeat split; intros;
    unfold checkEmptyDirectory, isEmptyDirectory, checkCreateWorkspace, resolveMonorepo,
      checkCreateMonorepo, resolveScope, getScope, noScope, console,
      fs.readdir, fs.access;
    always_any.
Qed.

(** Nothing after the scope is resolved asks a question. *)
Lemma Always_setup_asks_nothing (argv : list jsstring) (cwd filename : jsstring)
    (join : list jsstring -> jsstring)
    (jsonc_set : jsstring -> list jsstring -> Json -> result jsstring)
    (license_of : jsstring -> result (option jsstring))
    (scope : jsstring) (createWorkspace : option jsstring) (isMonorepo : bool) :
  Always (fun ev => isPrompt ev = false)
    (checkPackageJson argv scope ;;
     (if negb (BooleanS createWorkspace) then rootSetup cwd filename join else Ret tt) ;;
     rootLicense <- getPackageJsonLicense join license_of (join [cwd; lit "package.json"]) ;;
     (if isMonorepo then monorepoFlow cwd filename join jsonc_set scope rootLicense
      else if BooleanS createWorkspace
           then workspaceFlow cwd filename join jsonc_set scope createWorkspace rootLicense
           else singleFlow cwd filename join jsonc_set scope rootLicense) ;;
     if negb (match rootLicense with Some _ => true | None => false end)
        && (isMonorepo || BooleanS createWorkspace)
     then console LError
            (lit "No license found in root package.json, please check child packages manually if needed")
     else Ret tt).
Proof.
  unfold checkPackageJson, patchPackageJson, rootSetup, copyFiles, allFiles,
    getPackageJsonLicense, monorepoFlow, workspaceFlow, singleFlow, provisionLib,
    provisionApp, preparePackage, installAndCopy, copyFiles, allFiles, patchTsconfigs,
    setManifest, lintBuildTest, patchPackageJson, patchEslintImportInternal, runCommand,
    console, fs.readdir, fs.access, fs.readFile, fs.writeFile, fs.stat, fs.copyFile, fs.mkdir.
  always_any.
Qed.

(** X15. In every run of the CLI, whatever precedes a question to the user has
    changed nothing: no file written or copied, no directory made, no
    command run. *)
Theorem questions_precede_changes {W : Type} (env : Env W) (w : W)
    (argv : list jsstring) (cwd filename : jsstring)
    (join : list jsstring -> jsstring)
    (jsonc_set : jsstring -> list jsstring -> Json -> result jsstring)
    (license_of : jsstring -> result (option jsstring))
    (question : Event) (before after : list Event) :
  trace env (main argv cwd filename join jsonc_set license_of) w
    = before ++ question :: after ->
  isPrompt question = true ->
  Forall (fun ev => mutates ev = false) before.
Proof.
  intros Htr Hq.
  apply (@Phased_split _ _ (fun ev => mutates ev = false) (fun ev => isPrompt ev = false)
           (main argv cwd filename join jsonc_set license_of) env w question before after);
    [|congruence|exact Htr].
  destruct (Always_decisions_read_only argv cwd) as (Hempty & Hworkspace & Hmonorepo & Hscope).
  unfold main. apply Phased_bind; [unfold console; always_any|]. intros _.
  apply Phased_bind; [exact Hempty|]. intros isEmpty. unfold afterEmptyCheck.
  apply Phased_bind; [apply Hworkspace|]. intros createWorkspace. cbv zeta.
  apply Phased_bind; [apply Hmonorepo|]. intros isMonorepo.
  apply Phased_bind; [apply Hscope|]. intros scope.
  apply Phased_late. apply Always_setup_asks_nothing.
Qed.

Lemma questions_precede_changes_witness :
  let run_of_cli :=
    trace Fake.env
      (main [lit "node"; lit "cli.js"] (lit "/work") (lit "/pkg/src/cli.js")
         Fake.join Fake.jsonc_set Fake.license_of)
      (Fake.world [] [Some false] [Some (lit "foo")] (lit "{}")) in
  Forall (fun ev => mutates ev = false) (firstn 4 run_of_cli).
Proof.
  intros run_of_cli.
  refine (@questions_precede_changes _ Fake.env
            (Fake.world [] [Some false] [Some (lit "foo")] (lit "{}"))
            [lit "node"; lit "cli.js"] (lit "/work") (lit "/pkg/src/cli.js")
            Fake.join Fake.jsonc_set Fake.license_of
            (EvText (lit "Scope (optional)") (Some (lit "foo")))
            (firstn 4 run_of_cli) (skipn 5 run_of_cli) _ eq_refl).
  vm_compute. reflexivity.
Defined.

(** ** Adding a workspace by flag *)

Lemma run_checkCreateWorkspace_flag {W : Type} (env : Env W) (w w1 : W)
    (argv : list jsstring) :
  env _ (Access (lit "./package.json")) w = (Ok tt, w1) ->
  truthy (CREATE_WORKSPACE_ARG argv) = true ->
  run env (checkCreateWorkspace argv false) w =
  (Returned (Some (CREATE_WORKSPACE_ARG argv)), [EvAccess (lit "./package.json") (Ok tt)], w1).
Proof.
  intros Haccess Hflag. unfold checkCreateWorkspace. cbn [andb].
  rewrite run_bind, run_try_catch, run_bind, run_access, Haccess.
  cbn [run app negb]. rewrite Hflag. reflexivity.
Qed.

Ltac always_limits :=
  repeat first
    [ apply Always_access | apply Always_readdir | apply Always_stat
    | apply Always_try_catch; [|intros ?]
    | always_more ].

(** Once a workspace is being created: the scope question is the only one
    left, and none of the root tooling installs is run. *)
Lemma Always_workspace_setup (argv : list jsstring) (cwd filename : jsstring)
    (join : list jsstring -> jsstring)
    (jsonc_set : jsstring -> list jsstring -> Json -> result jsstring)
    (license_of : jsstring -> result (option jsstring))
    (createWorkspace : option jsstring) :
  BooleanS createWorkspace = true ->
  Always
    (fun ev =>
       (isPrompt ev = true -> exists answer, ev = EvText (scopeQuestion false) answer) /\
       Limits anything (fun c => startsWith c (lit "npm install --save-dev") = false) ev)
    (scope <- resolveScope argv false (BooleanS createWorkspace) ;;
     checkPackageJson argv scope ;;
     (if negb (BooleanS createWorkspace) then rootSetup cwd filename join else Ret tt) ;;
     rootLicense <- getPackageJsonLicense join license_of (join [cwd; lit "package.json"]) ;;
     (if false then monorepoFlow cwd filename join jsonc_set scope rootLicense
      else if BooleanS createWorkspace
           then workspaceFlow cwd filename join jsonc_set scope createWorkspace rootLicense
           else singleFlow cwd filename join jsonc_set scope rootLicense) ;;
     if negb (match rootLicense with Some _ => true | None => false end)
        && (false || BooleanS createWorkspace)
     then console LError
            (lit "No license found in root package.json, please check child packages manually if needed")
     else Ret tt).
Proof.
  intros Hcreating. apply Always_bind.
  - rewrite Hcreating. unfold resolveScope, getScope, noScope. cbn [negb andb].
    destruct (truthy (SCOPE_ARG argv)).
    + destruct (startsWith (SCOPE_ARG argv) (lit "@")); apply Always_Ret.
    + apply Always_bind.
      * apply Always_trigger. intros answer. split; [|exact I].
        intros _. exists answer. reflexivity.
      * intros [value|]; [destruct (negb (truthy value))|]; cbn [negb];
          try apply Always_Throw;
          destruct (eqb (trim value) [] || startsWith value (lit "@")); apply Always_Ret.
  - intros scope. intros W env w. apply Forall_forall. intros ev Hev. split.
    + intros Hprompt.
      pose proof (Always_setup_asks_nothing argv cwd filename join jsonc_set license_of
                    scope createWorkspace false env w) as Hquiet.
      rewrite Forall_forall in Hquiet. specialize (Hquiet ev Hev). cbv beta in Hquiet.
      congruence.
    + revert W env w ev Hev.
      assert (Hall : Always
        (Limits anything (fun c => startsWith c (lit "npm install --save-dev") = false))
        (checkPackageJson argv scope ;;
         (if negb (BooleanS createWorkspace) then rootSetup cwd filename join else Ret tt) ;;
         rootLicense <- getPackageJsonLicense join license_of (join [cwd; lit "package.json"]) ;;
         (if false then monorepoFlow cwd filename join jsonc_set scope rootLicense
          else if BooleanS createWorkspace
               then workspaceFlow cwd filename join jsonc_set scope createWorkspace rootLicense
               else singleFlow cwd filename join jsonc_set scope rootLicense) ;;
         if negb (match rootLicense with Some _ => true | None => false end)
            && (false || BooleanS createWorkspace)
         then console LError
                (lit "No license found in root package.json, please check child packages manually if needed")
         else Ret tt)).
      { destruct createWorkspace as [[|c path]|]; try discriminate.
        cbn [BooleanS truthy negb orb].
        unfold checkPackageJson, patchPackageJson, getPackageJsonLicense, workspaceFlow,
          preparePackage, installAndCopy, patchTsconfigs, setManifest, lintBuildTest,
          patchPackageJson.
        always_limits; first [exact I | reflexivity]. }
      intros W env w ev Hev. specialize (Hall W env w).
      rewrite Forall_forall in Hall. exact (Hall ev Hev).
Qed.

(** X16. With a workspace flag, in a directory that is not empty and has a
    package.json: the run starts with the banner, the listing and the access
    check (and the warning when the monorepo flag is also given); after
    that the only question ever asked is the required scope, and the root
    tooling is not installed. *)
Theorem workspace_flag_skips_questions {W : Type} (env : Env W) (w0 w1 w2 : W)
    (argv : list jsstring) (cwd filename : jsstring)
    (join : list jsstring -> jsstring)
    (jsonc_set : jsstring -> list jsstring -> Json -> result jsstring)
    (license_of : jsstring -> result (option jsstring))
    (file : jsstring) (files : list jsstring) :
  let w := snd (env _ (Console LLog banner) w0) in
  env _ (Readdir cwd) w = (Ok (file :: files), w1) ->
  env _ (Access (lit "./package.json")) w1 = (Ok tt, w2) ->
  CREATE_WORKSPACE_ARG argv <> [] ->
  exists later,
    trace env (main argv cwd filename join jsonc_set license_of) w0 =
      [EvConsole LLog banner; EvReaddir cwd (Ok (file :: files));
       EvAccess (lit "./package.json") (Ok tt)] ++
      (if MONOREPO_ARG argv
       then [EvConsole LWarn (lit "Ignoring --monorepo flag since creating a workspace")]
       else []) ++ later /\
    Forall (fun ev => isPrompt ev = true ->
                      exists answer, ev = EvText (scopeQuestion false) answer) later /\
    Forall (Limits anything (fun c => startsWith c (lit "npm install --save-dev") = false))
      later.
Proof.
  intros w Hdir Haccess Hflag.
  assert (Htruthy : truthy (CREATE_WORKSPACE_ARG argv) = true)
    by (destruct (CREATE_WORKSPACE_ARG argv); [contradiction | reflexivity]).
  destruct (env _ (PromptConfirm (lit "Current directory is not empty, continue?")) w1)
    as [answer wq] eqn:Hask.
  unfold trace, main. rewrite run_bind, run_console. fold w.
  rewrite run_bind, (run_checkEmptyDirectory env w argv cwd Hdir Hask).
  cbn [List.length Nat.eqb negb andb]. rewrite Htruthy. cbn [negb].
  unfold afterEmptyCheck.
  rewrite run_bind, (run_checkCreateWorkspace_flag env w1 argv Haccess Htruthy).
  cbv zeta. rewrite run_bind.
  assert (Hmono : exists w3,
    run env (resolveMonorepo argv (Some (CREATE_WORKSPACE_ARG argv))) w2 =
    (Returned false,
     if MONOREPO_ARG argv
     then [EvConsole LWarn (lit "Ignoring --monorepo flag since creating a workspace")]
     else [], w3)).
  { unfold resolveMonorepo, checkCreateMonorepo. cbn [BooleanS]. rewrite Htruthy. cbn [negb].
    destruct (MONOREPO_ARG argv).
    - rewrite run_bind, run_console. eexists. reflexivity.
    - eexists. reflexivity. }
  destruct Hmono as [w3 ->].
  pose proof (@Always_workspace_setup argv cwd filename join jsonc_set license_of
                (Some (CREATE_WORKSPACE_ARG argv)) Htruthy W env w3) as Hall.
  unfold trace in Hall.
  destruct (run env _ w3) as [[o later] w4]. cbn [fst snd] in *.
  exists later. split; [|split].
  - destruct (MONOREPO_ARG argv); reflexivity.
  - eapply Forall_impl; [|exact Hall]. intros ev [H _]. exact H.
  - eapply Forall_impl; [|exact Hall]. intros ev [_ H]. exact H.
Qed.

Lemma workspace_flag_skips_questions_witness :
  let argv := [lit "node"; lit "cli.js"; lit "-w"; lit "packages/newLib"] in
  let w := Fake.world [lit "package.json"] [] [Some (lit "foo")] (lit "{}") in
  exists later,
    trace Fake.env
      (main argv (lit "/work") (lit "/pkg/src/cli.js") Fake.join Fake.jsonc_set Fake.license_of)
      w =
      [EvConsole LLog banner; EvReaddir (lit "/work") (Ok [lit "package.json"]);
       EvAccess (lit "./package.json") (Ok tt)] ++ [] ++ later /\
    Forall (fun ev => isPrompt ev = true ->
                      exists answer, ev = EvText (scopeQuestion false) answer) later /\
    Forall (Limits anything (fun c => startsWith c (lit "npm install --save-dev") = false))
      later.
Proof.
  intros argv w.
  refine (@workspace_flag_skips_questions _ Fake.env w w w argv (lit "/work")
            (lit "/pkg/src/cli.js") Fake.join Fake.jsonc_set Fake.license_of
            (lit "package.json") [] eq_refl eq_refl _).
  discriminate.
Defined.

(** ** No copy before every entry has been looked at *)




